(** * BitbyBit: the live-alert client of the coastal threat dashboard

    A shallow embedding of [web/static/dashboard.js] and
    [web/static/live_monitoring.js]: the WebSocket handlers [onopen],
    [onmessage], [onerror], [onclose] and the helpers [setStatus] and
    [showToast], over an explicit model of what they act on:

    - decoded JSON values, with the JavaScript operators the handlers apply to
      them (member access, truthiness, [===] against a string literal, the
      string conversion of a template literal, [JSON.stringify (v, null, 2)]);
    - the page: the elements of the document in document order, each a
      reference with an id, a text and a style, and the pending [setTimeout]
      callbacks;
    - handlers as state-passing computations that end normally or with an
      uncaught exception, the page keeping what was written before the throw.

    The named display slots ([live-data], [alerts-area], [ws-status]) and the
    elements the scripts append to the body are modelled as one flat sequence
    of elements: no slot is nested in another one. *)

From Stdlib Require Import String Ascii List Bool Arith NArith Lia.
Import ListNotations.

Set Warnings "-register-all".

Local Open Scope list_scope.
Local Open Scope string_scope.

(* ================================================================== *)
(** ** Decoded JSON values *)

(** A value as [JSON.parse] returns it.  An object is the sequence of its own
    properties in enumeration order.  A number is carried by the text
    [Number.prototype.toString] gives it: the handlers only ever convert a
    number to a string, serialise it or test its truthiness, and all three
    are functions of that text (so [0] and [-0], both printed [0], are one).
    A string is the UTF-8 text of the JavaScript string. *)
Inductive value : Type :=
| JNull
| JBool (b : bool)
| JNumber (repr : string)
| JString (s : string)
| JArray (items : list value)
| JObject (props : list (string * value)).

(** A JavaScript value met by the handlers: a decoded value or [undefined]. *)
Definition jsval : Type := option value.
Definition undefined : jsval := None.

Fixpoint own_property (k : string) (props : list (string * value)) : jsval :=
  match props with
  | [] => undefined
  | (k', v) :: rest => if String.eqb k k' then Some v else own_property k rest
  end.

(** Completions of a computation: normal, or an uncaught exception. *)
Inductive Exception : Type := SyntaxError | TypeError.

Inductive Completion (A : Type) : Type :=
| Normal (a : A)
| Throw (e : Exception).
Arguments Normal {A} a.
Arguments Throw {A} e.

(** [v.k] for the property names the handlers read ([type], [data],
    [threat_level], [location]): none of them is defined on a built-in
    prototype, so only an object with that own property answers; reading a
    property of [null] or [undefined] throws. *)
Definition member (v : jsval) (k : string) : Completion jsval :=
  match v with
  | None => Throw TypeError
  | Some JNull => Throw TypeError
  | Some (JObject props) => Normal (own_property k props)
  | Some _ => Normal undefined
  end.

(** ToBoolean. *)
Definition truthy (v : jsval) : bool :=
  match v with
  | None => false
  | Some JNull => false
  | Some (JBool b) => b
  | Some (JNumber r) => negb (String.eqb r "0" || String.eqb r "NaN")
  | Some (JString s) => negb (String.eqb s EmptyString)
  | Some (JArray _) => true
  | Some (JObject _) => true
  end.

(** [v === lit] for a string literal [lit]: no conversion takes place. *)
Definition strict_eq (v : jsval) (lit : string) : bool :=
  match v with
  | Some (JString s) => String.eqb s lit
  | _ => false
  end.

Fixpoint join (sep : string) (parts : list string) : string :=
  match parts with
  | [] => EmptyString
  | [p] => p
  | p :: rest => p ++ sep ++ join sep rest
  end.

Definition has_own (k : string) (props : list (string * value)) : bool :=
  match own_property k props with Some _ => true | None => false end.

(** ToString of a decoded value, [None] standing for the TypeError of an
    object that cannot be converted: a decoded object holds no function, so an
    own [toString] property hides [Object.prototype.toString] and the
    conversion fails; any other object prints as [[object Object]].  An array
    joins its elements with a comma, [null] elements printing as nothing. *)
Fixpoint ToString (v : value) : option string :=
  match v with
  | JNull => Some "null"
  | JBool true => Some "true"
  | JBool false => Some "false"
  | JNumber r => Some r
  | JString s => Some s
  | JArray items =>
      let fix each (l : list value) : option (list string) :=
        match l with
        | [] => Some []
        | x :: l' =>
            match (match x with JNull => Some EmptyString | _ => ToString x end),
                  each l' with
            | Some s, Some ss => Some (s :: ss)
            | _, _ => None
            end
        end in
      option_map (join ",") (each items)
  | JObject props =>
      if has_own "toString" props then None else Some "[object Object]"
  end.

(** The substitution [${v}] of a template literal. *)
Definition template (v : jsval) : Completion string :=
  match v with
  | None => Normal "undefined"
  | Some x => match ToString x with
              | Some s => Normal s
              | None => Throw TypeError
              end
  end.

(* ------------------------------------------------------------------ *)
(** *** [JSON.stringify (v, null, 2)] *)

Definition LF : string := String (ascii_of_nat 10) EmptyString.
Definition DQUOTE : string := String (ascii_of_nat 34) EmptyString.
Definition gap : string := "  ".

Definition hex_digit (n : nat) : ascii :=
  match n with
  | 0 => "0" | 1 => "1" | 2 => "2" | 3 => "3" | 4 => "4" | 5 => "5"
  | 6 => "6" | 7 => "7" | 8 => "8" | 9 => "9" | 10 => "a" | 11 => "b"
  | 12 => "c" | 13 => "d" | 14 => "e" | _ => "f"
  end%char.

(** One code unit of QuoteJSONString: the two-character escapes, [\u00XX] for
    the other control characters, and the character itself otherwise (the
    bytes of a character beyond ASCII pass through). *)
Definition quote_char (c : ascii) : string :=
  let n := nat_of_ascii c in
  if Nat.eqb n 8 then "\b"
  else if Nat.eqb n 9 then "\t"
  else if Nat.eqb n 10 then "\n"
  else if Nat.eqb n 12 then "\f"
  else if Nat.eqb n 13 then "\r"
  else if Nat.eqb n 34 then "\" ++ DQUOTE
  else if Nat.eqb n 92 then "\\"
  else if Nat.ltb n 32 then
    "\u00" ++ String (hex_digit (n / 16)) (String (hex_digit (n mod 16)) EmptyString)
  else String c EmptyString.

Fixpoint quote_body (s : string) : string :=
  match s with
  | EmptyString => EmptyString
  | String c rest => quote_char c ++ quote_body rest
  end.

Definition QuoteJSONString (s : string) : string :=
  DQUOTE ++ quote_body s ++ DQUOTE.

Definition finite_repr (r : string) : bool :=
  negb (String.eqb r "Infinity" || String.eqb r "-Infinity" || String.eqb r "NaN").

(** SerializeJSONProperty at the current indentation. *)
Fixpoint serialize (indent : string) (v : value) : string :=
  match v with
  | JNull => "null"
  | JBool true => "true"
  | JBool false => "false"
  | JNumber r => if finite_repr r then r else "null"
  | JString s => QuoteJSONString s
  | JArray items =>
      let inner := indent ++ gap in
      match items with
      | [] => "[]"
      | _ => "[" ++ LF ++ inner
             ++ join ("," ++ LF ++ inner) (map (serialize inner) items)
             ++ LF ++ indent ++ "]"
      end
  | JObject props =>
      let inner := indent ++ gap in
      match props with
      | [] => "{}"
      | _ => "{" ++ LF ++ inner
             ++ join ("," ++ LF ++ inner)
                  (map (fun kv => QuoteJSONString (fst kv) ++ ": "
                                  ++ serialize inner (snd kv)) props)
             ++ LF ++ indent ++ "}"
      end
  end.

Definition JSON_stringify (v : value) : string := serialize EmptyString v.

(* ================================================================== *)
(** ** The page *)

(** An element of the document.  [ref] is the identity of the node: what a
    variable such as [stat] or [toast] holds, and what a pending timer
    callback keeps hold of. *)
Record Element : Type := mkElement {
  ref : nat;
  tagName : string;
  id : string;
  textContent : string;
  style : list (string * string)
}.

(** A pending [setTimeout] callback.  Both scripts only ever schedule the
    removal of one element, so a timer is its due time (in milliseconds) and
    the element its closure removes. *)
Record Timer : Type := mkTimer {
  due : N;
  target : nat
}.

Record Page : Type := mkPage {
  body : list Element;       (* the elements of the document, in order *)
  fresh : nat;               (* the next node reference to hand out *)
  timers : list Timer;       (* pending callbacks, in scheduling order *)
  now : N;                   (* the clock, in milliseconds *)
  sockets : list string      (* the URLs of the connections opened so far *)
}.

Definition with_body (b : list Element) (p : Page) : Page :=
  mkPage b (fresh p) (timers p) (now p) (sockets p).

(** A handler is a computation on the page. *)
Definition Handler (A : Type) : Type := Page -> Completion A * Page.

Definition ret {A} (a : A) : Handler A := fun p => (Normal a, p).

Definition bind {A B} (m : Handler A) (k : A -> Handler B) : Handler B :=
  fun p => match m p with
           | (Normal a, p') => k a p'
           | (Throw e, p') => (Throw e, p')
           end.

Definition lift {A} (c : Completion A) : Handler A := fun p => (c, p).

Declare Scope handler_scope.
Delimit Scope handler_scope with handler.
Notation "x <- m ;; k" := (bind m (fun x => k))
  (at level 61, m at next level, right associativity) : handler_scope.
Notation "m ;; k" := (bind m (fun _ => k))
  (at level 61, right associativity) : handler_scope.
Local Open Scope handler_scope.

(* ------------------------------------------------------------------ *)
(** *** The display-surface capabilities the scripts use *)

Fixpoint find_id (i : string) (b : list Element) : option nat :=
  match b with
  | [] => None
  | e :: rest => if String.eqb (id e) i then Some (ref e) else find_id i rest
  end.

(** [document.getElementById (i)]: the first element with that id. *)
Definition getElementById (i : string) : Handler (option nat) :=
  fun p => (Normal (find_id i (body p)), p).

Definition set_text (r : nat) (s : string) (e : Element) : Element :=
  if Nat.eqb (ref e) r
  then mkElement (ref e) (tagName e) (id e) s (style e)
  else e.

(** [el.textContent = s] for the element [el] of reference [r]. *)
Definition set_textContent (r : nat) (s : string) : Handler unit :=
  fun p => (Normal tt, with_body (map (set_text r s) (body p)) p).

(** [document.createElement]: a new node reference. *)
Definition createElement : Handler nat :=
  fun p => (Normal (fresh p),
            mkPage (body p) (S (fresh p)) (timers p) (now p) (sockets p)).

(** [document.body.appendChild (e)]. *)
Definition appendChild (e : Element) : Handler unit :=
  fun p => (Normal tt, with_body (body p ++ [e])%list p).

Definition detach (r : nat) (b : list Element) : list Element :=
  filter (fun e => negb (Nat.eqb (ref e) r)) b.

(** [setTimeout (() => el.remove (), ms)] for the element of reference [r]. *)
Definition setTimeout_remove (r : nat) (ms : N) : Handler unit :=
  fun p => (Normal tt,
            mkPage (body p) (fresh p)
                   (timers p ++ [mkTimer (now p + ms) r])%list
                   (now p) (sockets p)).

(* ------------------------------------------------------------------ *)
(** *** [setStatus] and [showToast] (the same text in both scripts) *)

Definition WS_STATUS : string := "ws-status".
Definition STATUS_DWELL : N := 3500.
Definition TOAST_DWELL : N := 5500.

Definition status_style (isError : bool) : list (string * string) :=
  [ ("position", "fixed"); ("top", "8px"); ("right", "8px");
    ("zIndex", "9999"); ("padding", "8px 18px"); ("borderRadius", "5px");
    ("background", if isError then "#c92a2a" else "#2776ea");
    ("color", "#fff"); ("fontWeight", "600");
    ("boxShadow", "0 2px 8px rgba(0,0,0,0.12)") ].

Definition setStatus (msg : string) (isError : bool) : Handler unit :=
  found <- getElementById WS_STATUS ;;
  stat <- match found with
          | Some r => ret r
          | None =>
              r <- createElement ;;
              appendChild (mkElement r "div" WS_STATUS EmptyString
                                     (status_style isError)) ;;
              ret r
          end ;;
  set_textContent stat msg ;;
  setTimeout_remove stat STATUS_DWELL.

Definition colors : list (string * string) :=
  [ ("info", "#2563eb"); ("success", "#22c55e");
    ("danger", "#dc2626"); ("warning", "#fbbf24") ].

Fixpoint assoc (k : string) (table : list (string * string)) : option string :=
  match table with
  | [] => None
  | (k', v) :: rest => if String.eqb k k' then Some v else assoc k rest
  end.

(** [colors[level] || colors.info] for a level that is a key of the table or
    names no property at all: the colour of the key, or that of [info].  A
    level that names a property [colors] inherits ([constructor],
    [toString], ...) finds that property instead and is outside this
    definition; the handlers pass [danger] and [warning] only. *)
Definition toast_color (level : string) : string :=
  match assoc level colors with
  | Some c => c
  | None => "#2563eb"
  end.

Definition toast_style (level : string) : list (string * string) :=
  [ ("position", "fixed"); ("bottom", "20px"); ("right", "20px");
    ("padding", "16px 30px"); ("background", toast_color level);
    ("color", "#fff"); ("borderRadius", "7px");
    ("boxShadow", "0 2px 14px rgba(30,40,100,.13)");
    ("fontWeight", "500"); ("fontSize", "1.05em");
    ("letterSpacing", "0.01em"); ("zIndex", "99999") ].

(** The element [showToast (message, level)] builds, at reference [r]. *)
Definition toast_element (r : nat) (message level : string) : Element :=
  mkElement r "div" EmptyString message (toast_style level).

Definition showToast (message level : string) : Handler unit :=
  r <- createElement ;;
  appendChild (toast_element r message level) ;;
  setTimeout_remove r TOAST_DWELL.

(* ------------------------------------------------------------------ *)
(** *** Connection, clock and events *)

(** What the scripts read of [window.location]. *)
Record Location : Type := mkLocation {
  protocol : string;         (* [http:] or [https:] *)
  host : string
}.

(** The template literal of line 1 of both scripts. *)
Definition ws_url (loc : Location) : string :=
  "ws://" ++ host loc ++ "/ws".

Definition new_WebSocket (url : string) : Handler unit :=
  fun p => (Normal tt,
            mkPage (body p) (fresh p) (timers p) (now p)
                   (sockets p ++ [url])%list).

(** The top level of either script: the handlers and functions it declares
    are the definitions below, the one statement it runs is line 1. *)
Definition script (loc : Location) : Handler unit :=
  new_WebSocket (ws_url loc).

Definition is_due (t : N) (tm : Timer) : bool := (due tm <=? t)%N.

Definition fire (b : list Element) (tm : Timer) : list Element :=
  detach (target tm) b.

(** [ms] milliseconds pass: the callbacks that have come due run, in
    scheduling order, and leave the timer queue. *)
Definition elapse (ms : N) : Handler unit :=
  fun p =>
    let t := (now p + ms)%N in
    (Normal tt,
     mkPage (fold_left fire (filter (is_due t) (timers p)) (body p))
            (fresh p)
            (filter (fun tm => negb (is_due t tm)) (timers p))
            t (sockets p)).

(** What the event loop delivers to a page. *)
Inductive Event : Type :=
| EvOpen
| EvMessage (data : string)
| EvError
| EvClose
| EvElapse (ms : N).

(* ------------------------------------------------------------------ *)
(** *** The severity mapping *)

(** The [if]/[else if] on the threat level: lines 22 to 26 of
    [dashboard.js] on [data.data], lines 17 to 21 of [live_monitoring.js] on
    [alert.data], the same statement in both.  [CRITICAL] is tested first. *)
Definition escalate (payload : jsval) : Handler unit :=
  level <- lift (member payload "threat_level") ;;
  if strict_eq level "CRITICAL" then
    location <- lift (member payload "location") ;;
    shown <- lift (template location) ;;
    showToast ("CRITICAL THREAT: " ++ shown) "danger"
  else
    level' <- lift (member payload "threat_level") ;;
    if strict_eq level' "HIGH" then
      location <- lift (member payload "location") ;;
      shown <- lift (template location) ;;
      showToast ("HIGH THREAT: " ++ shown) "warning"
    else ret tt.

(* ================================================================== *)
(** ** [dashboard.js] *)

Module Dashboard.

Definition onopen : Handler unit :=
  setStatus "Connected to live updates" false.

(** Lines 10 to 27 of [ws.onmessage], on the decoded message. *)
Definition process (data : value) : Handler unit :=
  liveArea <- getElementById "live-data" ;;
  match liveArea with
  | Some el => set_textContent el (JSON_stringify data)
  | None => ret tt
  end ;;
  alertArea <- getElementById "alerts-area" ;;
  match alertArea with
  | None => ret tt
  | Some area =>
      type <- lift (member (Some data) "type") ;;
      if strict_eq type "instant_threat" then
        payload <- lift (member (Some data) "data") ;;
        match payload with
        | Some d =>
            if truthy payload then
              set_textContent area (JSON_stringify d) ;;
              escalate payload
            else ret tt
        | None => ret tt
        end
      else ret tt
  end.

Definition onerror : Handler unit :=
  setStatus "WebSocket error occurred" true.

Definition onclose : Handler unit :=
  setStatus "WebSocket disconnected" true ;;
  liveArea <- getElementById "live-data" ;;
  match liveArea with
  | Some el => set_textContent el "WebSocket disconnected"
  | None => ret tt
  end ;;
  alertArea <- getElementById "alerts-area" ;;
  match alertArea with
  | Some el => set_textContent el "WebSocket disconnected"
  | None => ret tt
  end.

Section Decoder.
(** [JSON.parse] of the host, [None] when it throws a SyntaxError. *)
Variable JSON_parse : string -> option value.

Definition decode (text : string) : Handler value :=
  match JSON_parse text with
  | Some v => ret v
  | None => lift (Throw SyntaxError)
  end.

Definition onmessage (event_data : string) : Handler unit :=
  data <- decode event_data ;;
  process data.

Definition dispatch (e : Event) : Handler unit :=
  match e with
  | EvOpen => onopen
  | EvMessage d => onmessage d
  | EvError => onerror
  | EvClose => onclose
  | EvElapse ms => elapse ms
  end.

(** An uncaught exception ends the handler that raised it; the page
    keeps what the handler had done and goes on with the next event. *)
Definition step (p : Page) (e : Event) : Page := snd (dispatch e p).

Definition run (events : list Event) (p : Page) : Page :=
  fold_left step events p.
End Decoder.

End Dashboard.

(* ================================================================== *)
(** ** [live_monitoring.js] *)

Module LiveMonitoring.

Definition onopen : Handler unit :=
  setStatus "Connected to live alerts" false.

(** Lines 11 to 22 of [ws.onmessage]: [alertArea] was looked up on line 8,
    [alert] decoded on line 9. *)
Definition notify (alertArea : option nat) (alert : value) : Handler unit :=
  match alertArea with
  | Some el => set_textContent el (JSON_stringify alert)
  | None => ret tt
  end ;;
  type <- lift (member (Some alert) "type") ;;
  if strict_eq type "instant_threat" then
    payload <- lift (member (Some alert) "data") ;;
    if truthy payload then
      level <- lift (member payload "threat_level") ;;
      if truthy level then escalate payload
      else ret tt
    else ret tt
  else ret tt.

(** The handler on a frame that decodes to [alert]. *)
Definition process (alert : value) : Handler unit :=
  alertArea <- getElementById "alerts-area" ;;
  notify alertArea alert.

Definition onerror : Handler unit :=
  setStatus "WebSocket error occurred" true.

Definition onclose : Handler unit :=
  setStatus "WebSocket disconnected" true ;;
  alertArea <- getElementById "alerts-area" ;;
  match alertArea with
  | Some el => set_textContent el "WebSocket disconnected"
  | None => ret tt
  end.

Section Decoder.
Variable JSON_parse : string -> option value.

Definition decode (text : string) : Handler value :=
  match JSON_parse text with
  | Some v => ret v
  | None => lift (Throw SyntaxError)
  end.

Definition onmessage (event_data : string) : Handler unit :=
  alertArea <- getElementById "alerts-area" ;;
  alert <- decode event_data ;;
  notify alertArea alert.

Definition dispatch (e : Event) : Handler unit :=
  match e with
  | EvOpen => onopen
  | EvMessage d => onmessage d
  | EvError => onerror
  | EvClose => onclose
  | EvElapse ms => elapse ms
  end.

Definition step (p : Page) (e : Event) : Page := snd (dispatch e p).

Definition run (events : list Event) (p : Page) : Page :=
  fold_left step events p.
End Decoder.

End LiveMonitoring.

(* ================================================================== *)
(** ** What is observed of a page *)

(** The text shown in the slot of id [i], when the document has one. *)
Definition text_of (i : string) (b : list Element) : option string :=
  option_map textContent (find (fun e => String.eqb (id e) i) b).

(** The value a style property of the slot of id [i] has. *)
Definition style_of (i prop : string) (b : list Element) : option string :=
  match find (fun e => String.eqb (id e) i) b with
  | Some e => assoc prop (style e)
  | None => None
  end.

(** The status banners of a document: the elements in the fixed slot. *)
Definition banners (b : list Element) : list Element :=
  filter (fun e => String.eqb (id e) WS_STATUS) b.

(** Node references are handed out once: the elements of the document have
    distinct references, all of them (and those the pending callbacks hold)
    below the next fresh one. *)
Definition well_formed (p : Page) : Prop :=
  NoDup (map ref (body p))
  /\ Forall (fun e => ref e < fresh p) (body p)
  /\ Forall (fun tm => target tm < fresh p) (timers p).

(** [e'] is [e], but for its text when its id is one of [ids]. *)
Definition retext (ids : list string) (e e' : Element) : Prop :=
  e' = e
  \/ (In (id e) ids
      /\ exists s, e' = mkElement (ref e) (tagName e) (id e) s (style e)).

(** A document rewritten in the texts of the slots [ids] only. *)
Definition retexted (ids : list string) : list Element -> list Element -> Prop :=
  Forall2 (retext ids).

Fixpoint toasts_from (r : nat) (ts : list (string * string)) : list Element :=
  match ts with
  | [] => []
  | (message, level) :: rest =>
      toast_element r message level :: toasts_from (S r) rest
  end.

Fixpoint removals_from (t : N) (r : nat) (n : nat) : list Timer :=
  match n with
  | 0 => []
  | S n' => mkTimer t r :: removals_from t (S r) n'
  end.

(** From [p] to [p'] the toasts [ts] (message and level, oldest first) were
    emitted and nothing else happened but for the texts of the slots [ids]:
    each toast is a new element at the end of the document with a removal of
    its own due [TOAST_DWELL] later; no other element was added, removed or
    restyled, and no other callback scheduled or dropped. *)
Definition emits (ids : list string) (ts : list (string * string))
           (p p' : Page) : Prop :=
  (exists b', retexted ids (body p) b'
              /\ body p' = (b' ++ toasts_from (fresh p) ts)%list)
  /\ timers p' = (timers p
                  ++ removals_from (now p + TOAST_DWELL) (fresh p) (length ts))%list
  /\ fresh p' = fresh p + length ts
  /\ now p' = now p
  /\ sockets p' = sockets p.

(** The page once the text [s] is written in the slot of id [i], if the
    document has that slot. *)
Definition mirrored (i s : string) (p : Page) : Page :=
  match find_id i (body p) with
  | Some r => with_body (map (set_text r s) (body p)) p
  | None => p
  end.

Fixpoint distinct (l : list nat) : bool :=
  match l with
  | [] => true
  | x :: rest => negb (existsb (Nat.eqb x) rest) && distinct rest
  end.

(** [well_formed], as a check that runs. *)
Definition well_formedb (p : Page) : bool :=
  distinct (map ref (body p))
  && forallb (fun e => Nat.ltb (ref e) (fresh p)) (body p)
  && forallb (fun tm => Nat.ltb (target tm) (fresh p)) (timers p).

(** Member access that answers [undefined] where [member] throws: the
    field of a message as the specification speaks of it, absent when the
    message has no such field. *)
Definition field (v : jsval) (k : string) : jsval :=
  match member v k with
  | Normal x => x
  | Throw _ => undefined
  end.

Definition threat_level (m : value) : jsval :=
  field (field (Some m) "data") "threat_level".

Definition location_of (m : value) : jsval :=
  field (field (Some m) "data") "location".

(** The severity mapping in the words of the specification: the toasts a
    decoded message is escalated into.  It qualifies when its type is
    [instant_threat] and its data carries a threat level; [CRITICAL] is
    matched first and gives a [danger] toast, [HIGH] a [warning] toast, any
    other level none.  (A location that cannot be converted to a string
    gives none either: the handler stops on the TypeError.) *)
Definition notifications (m : value) : list (string * string) :=
  if strict_eq (field (Some m) "type") "instant_threat" then
    if strict_eq (threat_level m) "CRITICAL" then
      match template (location_of m) with
      | Normal shown => [("CRITICAL THREAT: " ++ shown, "danger")]
      | Throw _ => []
      end
    else if strict_eq (threat_level m) "HIGH" then
      match template (location_of m) with
      | Normal shown => [("HIGH THREAT: " ++ shown, "warning")]
      | Throw _ => []
      end
    else []
  else [].

(** [h] keeps the property [I] of the page, however it completes. *)
Definition preserves {A} (I : Page -> Prop) (h : Handler A) : Prop :=
  forall p, I p -> I (snd (h p)).

(** At most one element sits in the banner slot. *)
Definition banner_bound (p : Page) : Prop := length (banners (body p)) <= 1.

(** No callback of [tms] holds the element [e]. *)
Definition spared (tms : list Timer) (e : Element) : bool :=
  forallb (fun tm => negb (Nat.eqb (ref e) (target tm))) tms.

(** The element [e] is on the page [p] for the next [d] milliseconds, and
    gone from then on. *)
Definition expires_after (d : N) (e : Element) (p : Page) : Prop :=
  forall ms : N,
    ((ms < d)%N -> In e (body (snd (elapse ms p))))
    /\ ((d <= ms)%N -> ~ In e (body (snd (elapse ms p)))).

(** A message that the severity mapping escalates: an instant threat of
    level [CRITICAL] or [HIGH] (so its data is present), with a location
    that converts to a string. *)
Definition qualifies (m : value) : Prop :=
  strict_eq (field (Some m) "type") "instant_threat" = true
  /\ (strict_eq (threat_level m) "CRITICAL" = true
      \/ strict_eq (threat_level m) "HIGH" = true)
  /\ exists shown, template (location_of m) = Normal shown.

Definition DISCONNECTED : string := "WebSocket disconnected".

(** The scheme of the connection as the specification words it: mirroring
    the transport security of the hosting page. *)
Definition mirrored_url (loc : Location) : string :=
  (if String.eqb (protocol loc) "https:" then "wss://" else "ws://")
  ++ host loc ++ "/ws".

Definition DASHBOARD_SLOTS : list string := ["live-data"; "alerts-area"].
Definition MONITORING_SLOTS : list string := ["alerts-area"].

(* ------------------------------------------------------------------ *)
(** *** Concrete pages, messages and a decoder to run the handlers on *)

Definition threat (location level : string) : value :=
  JObject [ ("type", JString "instant_threat");
            ("data", JObject [ ("location", JString location);
                               ("threat_level", JString level) ]) ].

Definition chennai : value := threat "Chennai" "CRITICAL".
Definition goa : value := threat "Goa" "HIGH".
Definition kochi : value := threat "Kochi" "LOW".

(** A CRITICAL threat whose location is an object with an own [toString]
    property: the template literal cannot convert it. *)
Definition unprintable : value :=
  JObject [ ("type", JString "instant_threat");
            ("data", JObject [ ("location", JObject [("toString", JNull)]);
                               ("threat_level", JString "CRITICAL") ]) ].

(** The text of a frame that carries [v]: its JSON serialisation. *)
Definition frame_of (v : value) : string := JSON_stringify v.

(** A decoder given by a finite table: the JSON text of each value listed
    decodes to that value, any other text is rejected. *)
Definition table_parse (known : list value) (text : string) : option value :=
  own_property text (map (fun v => (frame_of v, v)) known).

Definition frames : string -> option value :=
  table_parse [chennai; goa; kochi; unprintable; JNull; JObject []].

Definition slot (r : nat) (i text : string) : Element :=
  mkElement r "pre" i text [].

Definition empty_page : Page := mkPage [] 0 [] 0 [].

(** The dashboard page with both of its slots, showing stale data. *)
Definition dashboard_page : Page :=
  mkPage [slot 0 "live-data" "stale"; slot 1 "alerts-area" "stale"] 2 [] 0 [].

(** A page with the live-data slot only. *)
Definition bare_page : Page :=
  mkPage [slot 0 "live-data" "stale"] 1 [] 0 [].

(** The monitoring page with its alerts slot. *)
Definition monitoring_page : Page :=
  mkPage [slot 0 "alerts-area" "stale"] 1 [] 0 [].

Definition secure_location : Location := mkLocation "https:" "coast.example".

(* ------------------------------------------------------------------ *)
(** *** Completions, streams and what handlers leave in place *)

(** A message of type [instant_threat] whose level is [CRITICAL] or [HIGH]:
    one that reaches a [showToast] call. *)
Definition escalated (m : value) : Prop :=
  strict_eq (field (Some m) "type") "instant_threat" = true
  /\ (strict_eq (threat_level m) "CRITICAL" = true
      \/ strict_eq (threat_level m) "HIGH" = true).

(** How the statements past the decode step complete on the message [m]. *)
Definition outcome (m : value) : Completion unit :=
  match m with
  | JNull => Throw TypeError
  | _ =>
      if strict_eq (field (Some m) "type") "instant_threat"
         && (strict_eq (threat_level m) "CRITICAL"
             || strict_eq (threat_level m) "HIGH")
      then match template (location_of m) with
           | Normal _ => Normal tt
           | Throw e => Throw e
           end
      else Normal tt
  end.



(** The slots the two scripts write text to. *)
Definition ALL_SLOTS : list string := ["live-data"; "alerts-area"; WS_STATUS].

(** From [p] to [p'] nothing was taken away: the elements of [p] are all
    there, in place, with their references, ids and styles, the texts of the
    three named slots apart; at most one element was appended, under a new
    reference; the pending callbacks are all still pending, and at most one
    was scheduled, for later, on a new element or on a banner. *)
Definition additive (p p' : Page) : Prop :=
  exists b' added extra,
    retexted ALL_SLOTS (body p) b'
    /\ body p' = (b' ++ added)%list
    /\ timers p' = (timers p ++ extra)%list
    /\ length added <= 1
    /\ length extra <= 1
    /\ Forall (fun x => fresh p <= ref x) added
    /\ Forall (fun tm => fresh p <= target tm
                         \/ exists x, In x (body p) /\ ref x = target tm
                                      /\ id x = WS_STATUS) extra
    /\ Forall (fun tm => (now p < due tm)%N) extra
    /\ fresh p <= fresh p'
    /\ now p' = now p
    /\ sockets p' = sockets p.

(** The element [t], which carries no id, is on the page and due to leave it
    at the time [d], not before: the removal of that time is pending, and no
    pending callback would remove [t] earlier. *)
Definition leaving (t : Element) (d : N) (p : Page) : Prop :=
  well_formed p
  /\ In t (body p)
  /\ id t = EmptyString
  /\ In (mkTimer d (ref t)) (timers p)
  /\ (forall tm, In tm (timers p) -> target tm = ref t -> (d <= due tm)%N)
  /\ (now p < d)%N.

(** The reference [r] was handed out and no element of the page has it. *)
Definition departed (r : nat) (p : Page) : Prop :=
  r < fresh p /\ ~ In r (map ref (body p)).

(* ================================================================== *)
(** ** Documents: looking up and rewriting slots *)

Section Documents.

Implicit Types (b c : list Element) (e : Element) (i : string) (r : nat).

Lemma set_text_ref r s e : ref (set_text r s e) = ref e.
Proof. unfold set_text; destruct (Nat.eqb (ref e) r); reflexivity. Qed.

Lemma set_text_id r s e : id (set_text r s e) = id e.
Proof. unfold set_text; destruct (Nat.eqb (ref e) r); reflexivity. Qed.

Lemma find_id_set_text i r s b :
  find_id i (map (set_text r s) b) = find_id i b.
Proof.
  induction b as [|e b IH]; simpl; [reflexivity|].
  rewrite set_text_id, set_text_ref, IH; reflexivity.
Qed.

Lemma find_id_In i r b :
  find_id i b = Some r -> exists e, In e b /\ ref e = r /\ id e = i.
Proof.
  induction b as [|e b IH]; simpl; [discriminate|].
  destruct (String.eqb (id e) i) eqn:E.
  - intros [= <-]. exists e. apply String.eqb_eq in E. auto.
  - intros H. destruct (IH H) as (x & Hin & Hx). exists x. auto.
Qed.

(** With distinct references, the element a lookup found is the only one
    of its reference. *)
Lemma NoDup_ref_unique b e e' :
  NoDup (map ref b) -> In e b -> In e' b -> ref e = ref e' -> e = e'.
Proof.
  induction b as [|x b IH]; simpl; [tauto|].
  intros Hnd. inversion Hnd as [|? ? Hnotin Hnd']; subst.
  intros [->|He] [->|He'] Href; auto.
  - exfalso. apply Hnotin. rewrite Href. now apply in_map.
  - exfalso. apply Hnotin. rewrite <- Href. now apply in_map.
Qed.

Lemma found_id i r b e :
  NoDup (map ref b) -> find_id i b = Some r -> In e b -> ref e = r ->
  id e = i.
Proof.
  intros Hnd Hf Hin Hr.
  destruct (find_id_In _ _ _ Hf) as (x & Hx & Hrx & Hix).
  rewrite (NoDup_ref_unique b e x Hnd Hin Hx); congruence.
Qed.

Lemma distinct_slots i j r r' b :
  NoDup (map ref b) -> find_id i b = Some r -> find_id j b = Some r' ->
  i <> j -> r <> r'.
Proof.
  intros Hnd Hi Hj Hne ->.
  destruct (find_id_In _ _ _ Hi) as (x & Hx & Hrx & Hix).
  apply Hne. rewrite <- Hix. now apply (found_id j r' b x).
Qed.

Lemma retext_refl ids e : retext ids e e.
Proof. now left. Qed.

Lemma retext_trans ids e1 e2 e3 :
  retext ids e1 e2 -> retext ids e2 e3 -> retext ids e1 e3.
Proof.
  intros [->|(Hin & s & ->)]; [auto|]. simpl.
  intros [->|(_ & s' & ->)]; right; split; eauto.
Qed.

Lemma retexted_refl ids b : retexted ids b b.
Proof. induction b; constructor; auto using retext_refl. Qed.

Lemma retexted_trans ids b1 b2 b3 :
  retexted ids b1 b2 -> retexted ids b2 b3 -> retexted ids b1 b3.
Proof.
  intros H; revert b3. induction H; intros b3 H3; inversion H3; subst.
  - constructor.
  - constructor; eauto using retext_trans. now apply IHForall2.
Qed.

Lemma retext_ref ids e e' : retext ids e e' -> ref e' = ref e.
Proof. intros [->|(_ & s & ->)]; reflexivity. Qed.

Lemma retext_id ids e e' : retext ids e e' -> id e' = id e.
Proof. intros [->|(_ & s & ->)]; reflexivity. Qed.

Lemma retexted_refs ids b c : retexted ids b c -> map ref c = map ref b.
Proof.
  induction 1; simpl; [reflexivity|].
  erewrite retext_ref by eassumption. congruence.
Qed.

Lemma retexted_find_id ids i b c :
  retexted ids b c -> find_id i c = find_id i b.
Proof.
  induction 1 as [|e e' b c He _ IH]; simpl; [reflexivity|].
  rewrite (retext_id _ _ _ He), (retext_ref _ _ _ He), IH. reflexivity.
Qed.

Lemma retexted_length ids b c : retexted ids b c -> length c = length b.
Proof. induction 1; simpl; congruence. Qed.

(** A text assignment through a reference only rewrites the slots that
    carry this reference. *)
Lemma set_text_retexted ids r s b :
  (forall e, In e b -> ref e = r -> In (id e) ids) ->
  retexted ids b (map (set_text r s) b).
Proof.
  induction b as [|e b IH]; intros H; simpl; constructor.
  - unfold set_text. destruct (Nat.eqb (ref e) r) eqn:E.
    + right. apply Nat.eqb_eq in E. split; [apply H; simpl; auto|eauto].
    + now left.
  - apply IH. intros x Hx. apply H. now right.
Qed.

Lemma assign_retexted ids i r s b :
  NoDup (map ref b) -> find_id i b = Some r -> In i ids ->
  retexted ids b (map (set_text r s) b).
Proof.
  intros Hnd Hf Hi. apply set_text_retexted. intros e He Hr.
  now rewrite (found_id i r b e Hnd Hf He Hr).
Qed.

Lemma text_of_assigned i r s b :
  find_id i b = Some r -> text_of i (map (set_text r s) b) = Some s.
Proof.
  unfold text_of. induction b as [|e b IH]; simpl; [discriminate|].
  rewrite set_text_id. destruct (String.eqb (id e) i) eqn:E.
  - intros [= <-]. unfold set_text. now rewrite Nat.eqb_refl.
  - exact IH.
Qed.

Lemma text_of_absent i r s b :
  find_id i b = None -> text_of i (map (set_text r s) b) = None.
Proof.
  unfold text_of. induction b as [|e b IH]; simpl; [reflexivity|].
  rewrite set_text_id. destruct (String.eqb (id e) i); [discriminate|exact IH].
Qed.

Lemma text_of_none i b : find_id i b = None <-> text_of i b = None.
Proof.
  unfold text_of. induction b as [|e b IH]; simpl; [tauto|].
  destruct (String.eqb (id e) i); [split; discriminate|exact IH].
Qed.

Lemma text_of_other i r r' s b :
  find_id i b = Some r -> r <> r' ->
  text_of i (map (set_text r' s) b) = text_of i b.
Proof.
  unfold text_of. induction b as [|e b IH]; simpl; [discriminate|].
  rewrite set_text_id. destruct (String.eqb (id e) i) eqn:E.
  - intros [= <-] Hne. unfold set_text.
    apply Nat.eqb_neq in Hne. now rewrite Hne.
  - exact IH.
Qed.

(** Elements appended under other ids do not show in the slot [i]. *)
Lemma text_of_app i b c :
  Forall (fun e => String.eqb (id e) i = false) c ->
  text_of i (b ++ c)%list = text_of i b.
Proof.
  unfold text_of. intros Hc. induction b as [|e b IH]; simpl.
  - induction Hc as [|x c Hx _ IHc]; simpl; [reflexivity|].
    now rewrite Hx.
  - destruct (String.eqb (id e) i); [reflexivity|exact IH].
Qed.

Lemma find_id_app i b c :
  Forall (fun e => String.eqb (id e) i = false) c ->
  find_id i (b ++ c)%list = find_id i b.
Proof.
  intros Hc. induction b as [|e b IH]; simpl.
  - induction Hc as [|x c Hx _ IHc]; simpl; [reflexivity|].
    now rewrite Hx.
  - destruct (String.eqb (id e) i); [reflexivity|exact IH].
Qed.

End Documents.

(* ================================================================== *)
(** ** Emission of toasts *)

Section Emission.

Variable ids : list string.

Lemma toasts_from_app r ts1 ts2 :
  toasts_from r (ts1 ++ ts2)
  = (toasts_from r ts1 ++ toasts_from (r + length ts1) ts2)%list.
Proof.
  revert r. induction ts1 as [|[m l] ts1 IH]; intros r; simpl.
  - now rewrite Nat.add_0_r.
  - rewrite IH. simpl. now rewrite Nat.add_succ_r.
Qed.

Lemma removals_from_app t r n1 n2 :
  removals_from t r (n1 + n2)
  = (removals_from t r n1 ++ removals_from t (r + n1) n2)%list.
Proof.
  revert r. induction n1 as [|n1 IH]; intros r; simpl.
  - now rewrite Nat.add_0_r.
  - rewrite IH. simpl. now rewrite Nat.add_succ_r.
Qed.

Lemma toasts_from_refs r ts :
  map ref (toasts_from r ts) = seq r (length ts).
Proof.
  revert r. induction ts as [|[m l] ts IH]; intros r; simpl;
    [reflexivity|now rewrite IH].
Qed.

Lemma removals_from_targets t r n :
  map target (removals_from t r n) = seq r n.
Proof.
  revert r. induction n as [|n IH]; intros r; simpl;
    [reflexivity|now rewrite IH].
Qed.

Lemma removals_from_due t r n :
  Forall (fun tm => due tm = t) (removals_from t r n).
Proof. revert r. induction n; intros r; simpl; constructor; auto. Qed.

Lemma toasts_from_ids r ts :
  Forall (fun e => id e = EmptyString) (toasts_from r ts).
Proof.
  revert r. induction ts as [|[m l] ts IH]; intros r; simpl; constructor; auto.
Qed.

Lemma emits_nothing p : emits ids [] p p.
Proof.
  unfold emits; simpl. repeat split.
  - exists (body p). split; [apply retexted_refl|now rewrite app_nil_r].
  - now rewrite app_nil_r.
  - now rewrite Nat.add_0_r.
Qed.

Lemma emits_assign p p1 i r s :
  emits ids [] p p1 -> NoDup (map ref (body p)) ->
  find_id i (body p1) = Some r -> In i ids ->
  emits ids [] p (snd (set_textContent r s p1)).
Proof.
  intros ((b' & Hb' & Hbody) & Ht & Hf & Hn & Hs) Hnd Hfind Hi.
  simpl in Hbody. rewrite app_nil_r in Hbody.
  unfold emits; simpl. repeat split; auto.
  exists (map (set_text r s) (body p1)). split; [|now rewrite app_nil_r].
  rewrite Hbody in *. eapply retexted_trans; [eassumption|].
  apply (assign_retexted ids i); auto.
  now rewrite (retexted_refs _ _ _ Hb').
Qed.

Lemma emits_toast p p1 message level :
  emits ids [] p p1 ->
  emits ids [(message, level)] p (snd (showToast message level p1)).
Proof.
  intros ((b' & Hb' & Hbody) & Ht & Hf & Hn & Hs).
  simpl in *. rewrite app_nil_r in *. rewrite Nat.add_0_r in Hf.
  unfold emits; simpl. rewrite Hf, Hn, Ht. repeat split; auto.
  - exists b'. split; [assumption|now rewrite Hbody].
  - now rewrite Nat.add_1_r.
Qed.

Hypothesis ids_named : ~ In EmptyString ids.

(** A toast carries no id: rewriting slots leaves it as it is. *)
Lemma retexted_toasts r ts c :
  retexted ids (toasts_from r ts) c -> c = toasts_from r ts.
Proof.
  revert r c. induction ts as [|[m l] ts IH]; intros r c H; simpl in H;
    inversion H as [|? e' ? c' He Hrest]; subst; [reflexivity|].
  simpl. f_equal; [|now apply IH].
  destruct He as [->|(Hin & _)]; [reflexivity|]. simpl in Hin. contradiction.
Qed.

Lemma emits_trans ts1 ts2 p p' p'' :
  emits ids ts1 p p' -> emits ids ts2 p' p'' ->
  emits ids (ts1 ++ ts2) p p''.
Proof.
  intros ((b1 & Hb1 & Hbody1) & Ht1 & Hf1 & Hn1 & Hs1)
         ((b2 & Hb2 & Hbody2) & Ht2 & Hf2 & Hn2 & Hs2).
  rewrite Hbody1 in Hb2.
  apply Forall2_app_inv_l in Hb2 as (c1 & c2 & Hc1 & Hc2 & ->).
  apply retexted_toasts in Hc2 as ->.
  unfold emits. rewrite length_app, removals_from_app, toasts_from_app.
  repeat split.
  - exists c1. split; [eapply retexted_trans; eassumption|].
    now rewrite Hbody2, Hf1, <- app_assoc.
  - now rewrite Ht2, Ht1, Hn1, Hf1, <- app_assoc.
  - rewrite Hf2, Hf1. lia.
  - congruence.
  - congruence.
Qed.

Lemma emits_well_formed ts p p' :
  well_formed p -> emits ids ts p p' -> well_formed p'.
Proof.
  intros (Hnd & Hb & Htm) ((b' & Hb' & Hbody) & Ht & Hf & Hn & Hs).
  rewrite Forall_forall in Hb, Htm.
  assert (Hold : forall r, In r (map ref b') -> r < fresh p).
  { rewrite (retexted_refs _ _ _ Hb'). intros r Hr.
    apply in_map_iff in Hr as (e & <- & He). auto. }
  unfold well_formed. rewrite Hbody, Ht, Hf. repeat split.
  - rewrite map_app, toasts_from_refs.
    apply NoDup_app.
    + now rewrite (retexted_refs _ _ _ Hb').
    + apply seq_NoDup.
    + intros r Hr Hs'. apply in_seq in Hs'. specialize (Hold r Hr). lia.
  - apply Forall_forall. intros e He.
    assert (Hr : In (ref e) (map ref (b' ++ toasts_from (fresh p) ts)%list))
      by now apply in_map.
    rewrite map_app, toasts_from_refs in Hr.
    apply in_app_or in Hr as [Hr|Hr].
    + specialize (Hold _ Hr). lia.
    + apply in_seq in Hr. lia.
  - apply Forall_forall. intros tm Hin.
    apply in_app_or in Hin as [Hin|Hin].
    + specialize (Htm _ Hin). simpl in Htm. lia.
    + apply (in_map target) in Hin. rewrite removals_from_targets in Hin.
      apply in_seq in Hin. lia.
Qed.

End Emission.

(* ================================================================== *)
(** ** The message handlers against the severity mapping *)

Lemma bind_lift_Normal {A B} (a : A) (k : A -> Handler B) p :
  bind (lift (Normal a)) k p = k a p.
Proof. reflexivity. Qed.

Lemma bind_lift_Throw {A B} e (k : A -> Handler B) p :
  bind (lift (Throw e)) k p = (Throw e, p).
Proof. reflexivity. Qed.

Lemma strict_eq_true v lit : strict_eq v lit = true -> v = Some (JString lit).
Proof.
  destruct v as [[]|]; simpl; try discriminate.
  intros H. apply String.eqb_eq in H. now subst.
Qed.

Lemma member_truthy v k : truthy v = true -> member v k = Normal (field v k).
Proof. unfold field. destruct v as [[]|]; simpl; try discriminate; reflexivity. Qed.

Lemma member_message m k :
  m <> JNull -> member (Some m) k = Normal (field (Some m) k).
Proof. unfold field. destruct m; simpl; congruence. Qed.

Lemma field_of_falsy v k : truthy v = false -> strict_eq (field v k) = fun _ => false.
Proof. unfold field. destruct v as [[]|]; simpl; try discriminate; reflexivity. Qed.

Lemma value_null_dec (m : value) : {m = JNull} + {m <> JNull}.
Proof. destruct m; (now left) || (right; discriminate). Qed.

Section Escalation.
Variable ids : list string.

Lemma escalate_emits m p p1 :
  strict_eq (field (Some m) "type") "instant_threat" = true ->
  truthy (field (Some m) "data") = true ->
  emits ids [] p p1 ->
  emits ids (notifications m) p (snd (escalate (field (Some m) "data") p1)).
Proof.
  intros Hty Htr H1.
  unfold notifications, threat_level, location_of, escalate. rewrite Hty.
  set (payload := field (Some m) "data") in *.
  unfold bind, lift. rewrite !(member_truthy payload) by assumption.
  destruct (strict_eq (field payload "threat_level") "CRITICAL").
  - destruct (template (field payload "location")); cbn [snd];
      [now apply emits_toast|assumption].
  - destruct (strict_eq (field payload "threat_level") "HIGH"); [|assumption].
    destruct (template (field payload "location")); cbn [snd];
      [now apply emits_toast|assumption].
Qed.

Lemma notifications_other m :
  strict_eq (field (Some m) "type") "instant_threat" = false ->
  notifications m = [].
Proof. unfold notifications. now intros ->. Qed.

Lemma notifications_falsy m :
  truthy (field (Some m) "data") = false -> notifications m = [].
Proof.
  intros H. unfold notifications, threat_level.
  rewrite (field_of_falsy _ "threat_level" H).
  now destruct (strict_eq (field _ _) _).
Qed.

Lemma notifications_level m :
  truthy (threat_level m) = false -> notifications m = [].
Proof.
  intros H. unfold notifications.
  destruct (strict_eq (threat_level m) "CRITICAL") eqn:E1.
  { apply strict_eq_true in E1. rewrite E1 in H. discriminate. }
  destruct (strict_eq (threat_level m) "HIGH") eqn:E2.
  { apply strict_eq_true in E2. rewrite E2 in H. discriminate. }
  now destruct (strict_eq (field _ _) _).
Qed.
End Escalation.

(* ================================================================== *)
(** ** What a message handler does to the page *)

Lemma retexted_nil b c : retexted [] b c -> c = b.
Proof.
  induction 1 as [|e e' b c He _ IH]; [reflexivity|].
  destruct He as [->|([] & _)]. now rewrite IH.
Qed.

(** With no slot allowed to change, the document only grows by the toasts. *)
Lemma emits_body ts p p' :
  emits [] ts p p' -> body p' = (body p ++ toasts_from (fresh p) ts)%list.
Proof. intros ((b' & Hb' & ->) & _). now rewrite (retexted_nil _ _ Hb'). Qed.

Lemma emits_after ids ts p p1 p' :
  emits ids [] p p1 -> emits [] ts p1 p' -> emits ids ts p p'.
Proof.
  intros ((b1 & Hb1 & Hbody1) & Ht1 & Hf1 & Hn1 & Hs1) H2.
  pose proof (emits_body _ _ _ H2) as Hbody2.
  destruct H2 as (_ & Ht2 & Hf2 & Hn2 & Hs2).
  simpl in *. rewrite app_nil_r in *. rewrite Nat.add_0_r in Hf1.
  unfold emits. rewrite Hbody2, Ht2, Hf2, Hn2, Hs2, Hbody1, Ht1, Hf1, Hn1, Hs1.
  repeat split; eauto.
Qed.

Lemma toasts_not_slot i r ts :
  i <> EmptyString ->
  Forall (fun e => String.eqb (id e) i = false) (toasts_from r ts).
Proof.
  intros Hi. eapply Forall_impl; [|apply toasts_from_ids].
  simpl. intros e ->. apply String.eqb_neq. congruence.
Qed.

Lemma emits_text i ts p p' :
  i <> EmptyString -> emits [] ts p p' ->
  text_of i (body p') = text_of i (body p).
Proof.
  intros Hi H. rewrite (emits_body _ _ _ H).
  apply text_of_app, toasts_not_slot, Hi.
Qed.

Lemma mirrored_emits ids i s p :
  NoDup (map ref (body p)) -> In i ids -> emits ids [] p (mirrored i s p).
Proof.
  intros Hnd Hi. unfold mirrored.
  destruct (find_id i (body p)) as [r|] eqn:E; [|apply emits_nothing].
  apply (emits_assign ids p p i r s (emits_nothing ids p) Hnd E Hi).
Qed.

Lemma mirrored_text i s p :
  text_of i (body (mirrored i s p))
  = option_map (fun _ => s) (text_of i (body p)).
Proof.
  unfold mirrored. destruct (find_id i (body p)) as [r|] eqn:E; simpl.
  - rewrite (text_of_assigned _ _ _ _ E).
    destruct (text_of i (body p)) eqn:T; [reflexivity|].
    apply text_of_none in T. congruence.
  - apply text_of_none in E. now rewrite E.
Qed.

Lemma mirrored_text_other i j s p :
  NoDup (map ref (body p)) -> i <> j ->
  text_of j (body (mirrored i s p)) = text_of j (body p).
Proof.
  intros Hnd Hne. unfold mirrored.
  destruct (find_id i (body p)) as [r|] eqn:E; [simpl|reflexivity].
  destruct (find_id j (body p)) as [r'|] eqn:E'.
  - apply (text_of_other j r' r s _ E').
    apply (distinct_slots j i r' r (body p)); auto.
  - rewrite (text_of_absent _ _ _ _ E'). symmetry. now apply text_of_none.
Qed.

Lemma mirrored_refs i s p : map ref (body (mirrored i s p)) = map ref (body p).
Proof.
  unfold mirrored. destruct (find_id i (body p)); [simpl|reflexivity].
  rewrite map_map. apply map_ext. intros e. apply set_text_ref.
Qed.

Lemma mirrored_find_id i j s p :
  find_id j (body (mirrored i s p)) = find_id j (body p).
Proof.
  unfold mirrored. destruct (find_id i (body p)); [simpl|reflexivity].
  apply find_id_set_text.
Qed.

Lemma mirror_step i s p :
  match find_id i (body p) with
  | Some el => set_textContent el s
  | None => ret tt
  end p = (Normal tt, mirrored i s p).
Proof. unfold mirrored. now destruct (find_id i (body p)). Qed.

(** [live_monitoring.js]: past the mirror, the handler only emits the toasts
    of the severity mapping. *)
Lemma monitoring_escalation m p :
  emits [] (notifications m)
        (mirrored "alerts-area" (JSON_stringify m) p)
        (snd (LiveMonitoring.process m p)).
Proof.
  unfold LiveMonitoring.process, LiveMonitoring.notify, bind at 1 2,
    getElementById.
  rewrite mirror_step.
  set (p1 := mirrored "alerts-area" (JSON_stringify m) p).
  pose proof (emits_nothing [] p1) as H1.
  destruct (value_null_dec m) as [->|Hm]; [exact H1|].
  rewrite (member_message m "type" Hm), bind_lift_Normal.
  destruct (strict_eq (field (Some m) "type") "instant_threat") eqn:Hty;
    [|now rewrite notifications_other].
  rewrite (member_message m "data" Hm), bind_lift_Normal.
  destruct (truthy (field (Some m) "data")) eqn:Htr;
    [|now rewrite notifications_falsy].
  rewrite (member_truthy _ "threat_level" Htr), bind_lift_Normal.
  fold (threat_level m).
  destruct (truthy (threat_level m)) eqn:Hlv;
    [|now rewrite notifications_level].
  now apply escalate_emits.
Qed.

(** [dashboard.js]: past the live-data mirror, the handler stops when there
    is no alerts-area; with one, it shows [data.data] there for an instant
    threat and emits the toasts of the severity mapping. *)
Lemma dashboard_escalation m p :
  let p1 := mirrored "live-data" (JSON_stringify m) p in
  let p' := snd (Dashboard.process m p) in
  match find_id "alerts-area" (body p) with
  | None => p' = p1
  | Some _ =>
      exists p2, (p2 = p1 \/ exists s, p2 = mirrored "alerts-area" s p1)
                 /\ emits [] (notifications m) p2 p'
  end.
Proof.
  intros p1 p'.
  assert (Harea1 : find_id "alerts-area" (body p1)
                   = find_id "alerts-area" (body p))
    by apply mirrored_find_id.
  destruct (find_id "alerts-area" (body p)) as [area|] eqn:Harea;
    subst p'; unfold Dashboard.process, bind at 1 2, getElementById;
    rewrite mirror_step; fold p1; unfold bind at 1; cbn [fst snd];
    rewrite Harea1; [|reflexivity].
  pose proof (emits_nothing [] p1) as H1.
  destruct (value_null_dec m) as [->|Hm]; [exists p1; auto|].
  rewrite (member_message m "type" Hm), bind_lift_Normal.
  destruct (strict_eq (field (Some m) "type") "instant_threat") eqn:Hty;
    [|rewrite notifications_other by assumption; exists p1; auto].
  rewrite (member_message m "data" Hm), bind_lift_Normal.
  destruct (field (Some m) "data") as [d|] eqn:Hd;
    [|rewrite notifications_falsy by (rewrite Hd; reflexivity); exists p1; auto].
  destruct (truthy (Some d)) eqn:Htr;
    [|rewrite notifications_falsy by (rewrite Hd; assumption); exists p1; auto].
  unfold bind at 1. cbn [set_textContent].
  exists (mirrored "alerts-area" (JSON_stringify d) p1). split.
  - right. now exists (JSON_stringify d).
  - rewrite <- Hd.
    replace (with_body _ p1) with (mirrored "alerts-area" (JSON_stringify d) p1).
    + apply escalate_emits; auto using emits_nothing. now rewrite Hd.
    + unfold mirrored. now rewrite Harea1.
Qed.

Lemma distinct_NoDup l : distinct l = true -> NoDup l.
Proof.
  induction l as [|x l IH]; simpl; [constructor|].
  intros H. apply andb_prop in H as [Hx Hl]. constructor; [|auto].
  intros Hin. apply negb_true_iff in Hx.
  assert (existsb (Nat.eqb x) l = true); [|congruence].
  apply existsb_exists. exists x. split; [assumption|apply Nat.eqb_refl].
Qed.

Lemma well_formedb_sound p : well_formedb p = true -> well_formed p.
Proof.
  unfold well_formedb, well_formed. intros H.
  apply andb_prop in H as [H Ht]. apply andb_prop in H as [Hd Hb].
  repeat split.
  - now apply distinct_NoDup.
  - rewrite forallb_forall in Hb. apply Forall_forall. intros e He.
    now apply Nat.ltb_lt, Hb.
  - rewrite forallb_forall in Ht. apply Forall_forall. intros e He.
    now apply Nat.ltb_lt, Ht.
Qed.

Lemma dashboard_onmessage_decoded JSON_parse frame m p :
  JSON_parse frame = Some m ->
  Dashboard.onmessage JSON_parse frame p = Dashboard.process m p.
Proof.
  intros H. unfold Dashboard.onmessage, Dashboard.decode. now rewrite H.
Qed.

Lemma monitoring_onmessage_decoded JSON_parse frame m p :
  JSON_parse frame = Some m ->
  LiveMonitoring.onmessage JSON_parse frame p = LiveMonitoring.process m p.
Proof.
  intros H.
  unfold LiveMonitoring.onmessage, LiveMonitoring.process, LiveMonitoring.decode.
  now rewrite H.
Qed.

Lemma monitoring_emits m p :
  well_formed p ->
  emits MONITORING_SLOTS (notifications m) p (snd (LiveMonitoring.process m p)).
Proof.
  intros (Hnd & _).
  apply (emits_after _ _ _ (mirrored "alerts-area" (JSON_stringify m) p)).
  - apply mirrored_emits; simpl; auto.
  - apply monitoring_escalation.
Qed.

Lemma dashboard_emits m p :
  well_formed p ->
  emits DASHBOARD_SLOTS
        (match find_id "alerts-area" (body p) with
         | Some _ => notifications m
         | None => []
         end)
        p (snd (Dashboard.process m p)).
Proof.
  intros (Hnd & _).
  pose proof (dashboard_escalation m p) as H. cbv zeta in H.
  assert (H1 : emits DASHBOARD_SLOTS [] p
                     (mirrored "live-data" (JSON_stringify m) p))
    by (apply mirrored_emits; simpl; auto).
  destruct (find_id "alerts-area" (body p)) as [area|].
  - destruct H as (p2 & [->|(s & ->)] & H2).
    + eapply emits_after; eassumption.
    + eapply emits_after; [|exact H2].
      unfold mirrored at 1.
      destruct (find_id "alerts-area" _) as [r|] eqn:E; [|exact H1].
      apply (emits_assign _ _ _ "alerts-area" r s H1 Hnd E). simpl; auto.
  - now rewrite H.
Qed.

Lemma monitoring_mirror m p :
  text_of "alerts-area" (body (snd (LiveMonitoring.process m p)))
  = option_map (fun _ => JSON_stringify m) (text_of "alerts-area" (body p)).
Proof.
  rewrite (emits_text "alerts-area" _ _ _ ltac:(discriminate)
             (monitoring_escalation m p)).
  apply mirrored_text.
Qed.

Lemma dashboard_mirror m p :
  well_formed p ->
  text_of "live-data" (body (snd (Dashboard.process m p)))
  = option_map (fun _ => JSON_stringify m) (text_of "live-data" (body p)).
Proof.
  intros (Hnd & _).
  pose proof (dashboard_escalation m p) as H. cbv zeta in H.
  destruct (find_id "alerts-area" (body p)) as [area|].
  - destruct H as (p2 & Hp2 & H2).
    rewrite (emits_text "live-data" _ _ _ ltac:(discriminate) H2).
    destruct Hp2 as [->|(s & ->)]; [apply mirrored_text|].
    rewrite mirrored_text_other; [apply mirrored_text| |discriminate].
    now rewrite mirrored_refs.
  - rewrite H. apply mirrored_text.
Qed.

Lemma notifications_length m : length (notifications m) <= 1.
Proof.
  unfold notifications.
  repeat match goal with
         | |- context [if ?c then _ else _] => destruct c
         | |- context [match ?c with Normal _ => _ | Throw _ => _ end] =>
             destruct c
         end; simpl; lia.
Qed.

Lemma notifications_critical m shown :
  strict_eq (field (Some m) "type") "instant_threat" = true ->
  strict_eq (threat_level m) "CRITICAL" = true ->
  template (location_of m) = Normal shown ->
  notifications m = [("CRITICAL THREAT: " ++ shown, "danger")].
Proof. unfold notifications. now intros -> -> ->. Qed.

Lemma notifications_high m shown :
  strict_eq (field (Some m) "type") "instant_threat" = true ->
  strict_eq (threat_level m) "HIGH" = true ->
  template (location_of m) = Normal shown ->
  notifications m = [("HIGH THREAT: " ++ shown, "warning")].
Proof.
  unfold notifications. intros -> H ->.
  rewrite (strict_eq_true _ _ H). reflexivity.
Qed.


(* ================================================================== *)
(** ** Invariants of the handlers *)

Section Preservation.

Context {A B : Type} (I : Page -> Prop).

Lemma preserves_ret (a : A) : preserves I (ret a).
Proof. intros p H. exact H. Qed.

Lemma preserves_lift (c : Completion A) : preserves I (lift c).
Proof. intros p H. exact H. Qed.

Lemma preserves_bind (m : Handler A) (k : A -> Handler B) :
  preserves I m -> (forall a, preserves I (k a)) -> preserves I (bind m k).
Proof.
  intros Hm Hk p H. unfold bind. specialize (Hm p H).
  destruct (m p) as [[a|e] p']; simpl in *; [now apply Hk|assumption].
Qed.

End Preservation.

(** Walks through a handler: binds, returns and the branches of its tests,
    leaving the primitive steps to the hints of the database [page]. *)
Create HintDb page.

Ltac preserve :=
  repeat first
    [ solve [auto with page]
    | apply preserves_ret
    | apply preserves_lift
    | apply preserves_bind; [|intros ?]
    | match goal with
      | |- preserves _ (match ?x with _ => _ end) => destruct x
      | |- preserves _ (if ?x then _ else _) => destruct x
      end ].

Section Primitives.

Variable I : Page -> Prop.
Hypothesis I_text : forall r s p, I p -> I (snd (set_textContent r s p)).
Hypothesis I_toast : forall m l p, I p -> I (snd (showToast m l p)).
Hypothesis I_status : forall m e p, I p -> I (snd (setStatus m e p)).
Hypothesis I_elapse : forall ms p, I p -> I (snd (elapse ms p)).

Lemma preserves_getElementById i : preserves I (getElementById i).
Proof. intros p H. exact H. Qed.

Lemma preserves_set_textContent r s : preserves I (set_textContent r s).
Proof. intros p. apply I_text. Qed.

Lemma preserves_showToast m l : preserves I (showToast m l).
Proof. intros p. apply I_toast. Qed.

Lemma preserves_setStatus m e : preserves I (setStatus m e).
Proof. intros p. apply I_status. Qed.

#[local] Hint Resolve preserves_getElementById preserves_set_textContent
     preserves_showToast preserves_setStatus : page.

Lemma preserves_escalate payload : preserves I (escalate payload).
Proof. unfold escalate. preserve. Qed.

#[local] Hint Resolve preserves_escalate : page.

Lemma preserves_dashboard_process m : preserves I (Dashboard.process m).
Proof. unfold Dashboard.process. preserve. Qed.

Lemma preserves_monitoring_notify a m : preserves I (LiveMonitoring.notify a m).
Proof. unfold LiveMonitoring.notify. preserve. Qed.

#[local] Hint Resolve preserves_dashboard_process preserves_monitoring_notify : page.

Lemma preserves_dashboard_dispatch parse e :
  preserves I (Dashboard.dispatch parse e).
Proof.
  destruct e; simpl; try (intros p; apply I_elapse);
    unfold Dashboard.onopen, Dashboard.onmessage, Dashboard.decode,
      Dashboard.onerror, Dashboard.onclose; preserve.
Qed.

Lemma preserves_monitoring_dispatch parse e :
  preserves I (LiveMonitoring.dispatch parse e).
Proof.
  destruct e; simpl; try (intros p; apply I_elapse);
    unfold LiveMonitoring.onopen, LiveMonitoring.onmessage,
      LiveMonitoring.decode, LiveMonitoring.onerror, LiveMonitoring.onclose;
    preserve.
Qed.

Lemma preserves_dashboard_run parse events p :
  I p -> I (Dashboard.run parse events p).
Proof.
  revert p. induction events as [|e events IH]; intros p H; simpl; [exact H|].
  apply IH. now apply preserves_dashboard_dispatch.
Qed.

Lemma preserves_monitoring_run parse events p :
  I p -> I (LiveMonitoring.run parse events p).
Proof.
  revert p. induction events as [|e events IH]; intros p H; simpl; [exact H|].
  apply IH. now apply preserves_monitoring_dispatch.
Qed.

End Primitives.

Lemma sockets_setStatus msg isError p :
  sockets (snd (setStatus msg isError p)) = sockets p.
Proof.
  unfold setStatus, bind, getElementById. cbn [fst snd].
  now destruct (find_id WS_STATUS (body p)).
Qed.

(* ================================================================== *)
(** ** Timers *)

(** Firing callbacks removes the elements they hold, and nothing else. *)
Lemma fire_all tms b : fold_left fire tms b = filter (spared tms) b.
Proof.
  revert b. induction tms as [|tm tms IH]; intros b; simpl.
  - induction b as [|e b IHb]; simpl; [reflexivity|now rewrite <- IHb].
  - rewrite IH. unfold fire, detach.
    induction b as [|e b IHb]; simpl; [reflexivity|].
    destruct (Nat.eqb (ref e) (target tm)); simpl; [exact IHb|].
    destruct (spared tms e); [now rewrite IHb|exact IHb].
Qed.

Lemma elapse_body ms p :
  body (snd (elapse ms p))
  = filter (spared (filter (is_due (now p + ms)) (timers p))) (body p).
Proof. simpl. apply fire_all. Qed.

Lemma spared_true tms e :
  spared tms e = true <-> forall tm, In tm tms -> target tm <> ref e.
Proof.
  unfold spared. rewrite forallb_forall. split; intros H tm Hin.
  - specialize (H tm Hin). apply negb_true_iff, Nat.eqb_neq in H. congruence.
  - apply negb_true_iff, Nat.eqb_neq. specialize (H tm Hin). congruence.
Qed.

Lemma spared_false tms e tm :
  In tm tms -> target tm = ref e -> spared tms e = false.
Proof.
  intros Hin Ht. destruct (spared tms e) eqn:E; [|reflexivity].
  rewrite spared_true in E. now specialize (E tm Hin).
Qed.

(* ================================================================== *)
(** ** The status banner *)

Lemma banners_set_text r s b :
  banners (map (set_text r s) b) = map (set_text r s) (banners b).
Proof.
  unfold banners. induction b as [|e b IH]; simpl; [reflexivity|].
  rewrite set_text_id. destruct (String.eqb (id e) WS_STATUS); simpl; congruence.
Qed.

Lemma banners_app b c : banners (b ++ c) = (banners b ++ banners c)%list.
Proof. apply filter_app. Qed.

Lemma banners_none b : find_id WS_STATUS b = None -> banners b = [].
Proof.
  unfold banners. induction b as [|e b IH]; simpl; [reflexivity|].
  destruct (String.eqb (id e) WS_STATUS); [discriminate|exact IH].
Qed.

Lemma banners_found r b :
  find_id WS_STATUS b = Some r ->
  exists e rest, banners b = e :: rest /\ ref e = r.
Proof.
  unfold banners. induction b as [|e b IH]; simpl; [discriminate|].
  destruct (String.eqb (id e) WS_STATUS); [|exact IH].
  intros [= <-]. eauto.
Qed.

Lemma banners_filter f b : banners (filter f b) = filter f (banners b).
Proof.
  unfold banners. induction b as [|e b IH]; simpl; [reflexivity|].
  destruct (f e) eqn:F, (String.eqb (id e) WS_STATUS) eqn:E; simpl;
    rewrite ?F, ?E; congruence.
Qed.

Lemma filter_length_le {X} (f : X -> bool) l : length (filter f l) <= length l.
Proof. induction l as [|x l IH]; simpl; [lia|]. destruct (f x); simpl; lia. Qed.

Lemma bound_set_textContent r s p :
  banner_bound p -> banner_bound (snd (set_textContent r s p)).
Proof. unfold banner_bound. simpl. now rewrite banners_set_text, length_map. Qed.

Lemma bound_showToast m l p :
  banner_bound p -> banner_bound (snd (showToast m l p)).
Proof.
  unfold banner_bound. simpl. rewrite banners_app. simpl.
  now rewrite app_nil_r.
Qed.

Lemma bound_elapse ms p : banner_bound p -> banner_bound (snd (elapse ms p)).
Proof.
  unfold banner_bound. rewrite elapse_body, banners_filter.
  intros H. etransitivity; [apply filter_length_le|exact H].
Qed.

(** What one status update does to the banner slot. *)
Lemma setStatus_banner msg isError p :
  banner_bound p ->
  let p' := snd (setStatus msg isError p) in
  exists e,
    banners (body p') = [e]
    /\ textContent e = msg
    /\ timers p' = (timers p ++ [mkTimer (now p + STATUS_DWELL) (ref e)])%list
    /\ (forall e0, banners (body p) = [e0] ->
                   e = mkElement (ref e0) (tagName e0) (id e0) msg (style e0))
    /\ (banners (body p) = [] ->
        e = mkElement (fresh p) "div" WS_STATUS msg (status_style isError)).
Proof.
  unfold banner_bound. intros Hb. cbv zeta.
  unfold setStatus, bind, getElementById. cbn [fst snd].
  destruct (find_id WS_STATUS (body p)) as [r|] eqn:E; cbn.
  - destruct (banners_found _ _ E) as (e0 & rest & Hbn & Hr).
    rewrite Hbn in Hb. destruct rest; [|simpl in Hb; lia].
    rewrite banners_set_text, Hbn. simpl. unfold set_text.
    rewrite Hr, Nat.eqb_refl. eexists. split; [reflexivity|]. simpl.
    repeat split; [|discriminate].
    intros ? [= <-]. now rewrite Hr.
  - rewrite banners_set_text, banners_app, (banners_none _ E). simpl.
    unfold set_text. simpl. rewrite Nat.eqb_refl. eexists.
    split; [reflexivity|]. simpl. repeat split; auto. discriminate.
Qed.

Lemma bound_setStatus msg isError p :
  banner_bound p -> banner_bound (snd (setStatus msg isError p)).
Proof.
  intros H. destruct (setStatus_banner msg isError p H) as (e & He & _).
  unfold banner_bound. rewrite He. simpl. lia.
Qed.

Lemma setStatus_dwell msg isError p ms :
  banner_bound p -> (STATUS_DWELL <= ms)%N ->
  banners (body (snd (elapse ms (snd (setStatus msg isError p))))) = [].
Proof.
  intros Hb Hms.
  destruct (setStatus_banner msg isError p Hb) as (e & He & _ & Ht & _).
  assert (Hnow : now (snd (setStatus msg isError p)) = now p).
  { unfold setStatus, bind, getElementById. cbn [fst snd].
    now destruct (find_id WS_STATUS (body p)). }
  rewrite elapse_body, banners_filter, He, Ht, Hnow. simpl.
  rewrite (spared_false _ e (mkTimer (now p + STATUS_DWELL) (ref e)));
    [reflexivity| |reflexivity].
  apply filter_In. split; [apply in_or_app; right; simpl; auto|].
  unfold is_due. simpl. apply N.leb_le. lia.
Qed.

(* ================================================================== *)
(** ** Sequences of messages and the dwell of toasts *)

Lemma emits_find_id ids i ts p p' :
  i <> EmptyString -> emits ids ts p p' ->
  find_id i (body p') = find_id i (body p).
Proof.
  intros Hi ((b' & Hb' & ->) & _).
  rewrite find_id_app by (apply toasts_not_slot, Hi).
  apply (retexted_find_id ids), Hb'.
Qed.

Lemma monitoring_run_emits (JSON_parse : string -> option value) fs ms p :
  Forall2 (fun f m => JSON_parse f = Some m) fs ms ->
  well_formed p ->
  emits MONITORING_SLOTS (concat (map notifications ms)) p
        (LiveMonitoring.run JSON_parse (map EvMessage fs) p).
Proof.
  intros H. revert p. induction H as [|f m fs ms Hf _ IH]; intros p Hwf.
  - apply emits_nothing.
  - change (LiveMonitoring.run JSON_parse (map EvMessage (f :: fs)) p)
      with (LiveMonitoring.run JSON_parse (map EvMessage fs)
              (snd (LiveMonitoring.onmessage JSON_parse f p))).
    cbn [map concat].
    rewrite (monitoring_onmessage_decoded _ _ _ _ Hf).
    pose proof (monitoring_emits m p Hwf) as H1.
    eapply emits_trans; [|exact H1|].
    + simpl. intros [H|[]]. discriminate.
    + apply IH. eapply emits_well_formed; eassumption.
Qed.

Lemma dashboard_run_emits (JSON_parse : string -> option value) fs ms p :
  Forall2 (fun f m => JSON_parse f = Some m) fs ms ->
  well_formed p ->
  find_id "alerts-area" (body p) <> None ->
  emits DASHBOARD_SLOTS (concat (map notifications ms)) p
        (Dashboard.run JSON_parse (map EvMessage fs) p).
Proof.
  intros H. revert p.
  induction H as [|f m fs ms Hf _ IH]; intros p Hwf Harea.
  - apply emits_nothing.
  - change (Dashboard.run JSON_parse (map EvMessage (f :: fs)) p)
      with (Dashboard.run JSON_parse (map EvMessage fs)
              (snd (Dashboard.onmessage JSON_parse f p))).
    cbn [map concat].
    rewrite (dashboard_onmessage_decoded _ _ _ _ Hf).
    pose proof (dashboard_emits m p Hwf) as H1.
    destruct (find_id "alerts-area" (body p)) eqn:E; [|contradiction].
    eapply emits_trans; [|exact H1|].
    + simpl. intros [H|[H|[]]]; discriminate.
    + apply IH; [eapply emits_well_formed; eassumption|].
      rewrite (emits_find_id _ "alerts-area" _ _ _ ltac:(discriminate) H1), E.
      discriminate.
Qed.

(** Every toast emitted stays for [TOAST_DWELL] and then goes, whatever else
    is pending. *)
Lemma toast_dwell ids ts p p' t :
  well_formed p -> emits ids ts p p' ->
  In t (toasts_from (fresh p) ts) ->
  expires_after TOAST_DWELL t p'.
Proof.
  intros (Hnd & Hb & Htm) ((b' & Hb' & Hbody) & Ht & Hf & Hn & Hs) Hin ms.
  assert (Hr : In (ref t) (seq (fresh p) (length ts))).
  { rewrite <- toasts_from_refs. now apply in_map. }
  rewrite elapse_body, Hbody, Ht, Hn. split; intros Hms.
  - apply filter_In. split; [apply in_or_app; now right|].
    apply spared_true. intros tm Htmin.
    apply filter_In in Htmin as [Htmin Hdue].
    apply in_app_or in Htmin as [Hold|Hnew].
    + rewrite Forall_forall in Htm. specialize (Htm tm Hold).
      apply in_seq in Hr. simpl in Htm. lia.
    + pose proof (removals_from_due (now p + TOAST_DWELL) (fresh p) (length ts))
        as Hd.
      rewrite Forall_forall in Hd. specialize (Hd tm Hnew).
      unfold is_due in Hdue. apply N.leb_le in Hdue. lia.
  - intros Hin'. apply filter_In in Hin' as [_ Hsp].
    rewrite <- (removals_from_targets (now p + TOAST_DWELL)) in Hr.
    apply in_map_iff in Hr as (tm & Htgt & Htmin).
    rewrite (spared_false _ t tm) in Hsp; [discriminate| |assumption].
    apply filter_In. split; [apply in_or_app; now right|].
    pose proof (removals_from_due (now p + TOAST_DWELL) (fresh p) (length ts))
      as Hd.
    rewrite Forall_forall in Hd. specialize (Hd tm Htmin).
    unfold is_due. apply N.leb_le. lia.
Qed.

Lemma qualifies_one m : qualifies m -> length (notifications m) = 1.
Proof.
  intros (Hty & [Hl|Hl] & shown & Hs);
    [rewrite (notifications_critical m shown)
    |rewrite (notifications_high m shown)]; auto.
Qed.

Lemma concat_singletons {X} (ls : list (list X)) :
  Forall (fun l => length l = 1) ls -> length (concat ls) = length ls.
Proof. induction 1 as [|l ls Hl _ IH]; simpl; [reflexivity|]. rewrite length_app. lia. Qed.

(* ================================================================== *)
(** ** Status updates and the mirrors *)

Lemma find_id_ref_bound i r p :
  well_formed p -> find_id i (body p) = Some r -> r < fresh p.
Proof.
  intros (_ & Hb & _) Hf. destruct (find_id_In _ _ _ Hf) as (e & He & <- & _).
  rewrite Forall_forall in Hb. now apply Hb.
Qed.

Lemma setStatus_well_formed msg isError p :
  well_formed p -> well_formed (snd (setStatus msg isError p)).
Proof.
  intros Hwf. pose proof Hwf as (Hnd & Hb & Ht).
  unfold setStatus, bind, getElementById. cbn [fst snd].
  destruct (find_id WS_STATUS (body p)) as [r|] eqn:E; cbn;
    unfold well_formed; cbn.
  - rewrite map_map. rewrite (map_ext _ ref (set_text_ref r msg)).
    repeat split; [assumption| |].
    + apply Forall_map. eapply Forall_impl; [|exact Hb].
      intros e He. now rewrite set_text_ref.
    + apply Forall_app. split; [assumption|]. constructor; [|constructor].
      simpl. eapply find_id_ref_bound; eassumption.
  - rewrite map_map. rewrite (map_ext _ ref (set_text_ref (fresh p) msg)).
    rewrite map_app. simpl. rewrite Forall_forall in Hb, Ht. repeat split.
    + apply NoDup_app; [assumption|repeat constructor; simpl; tauto|].
      intros x Hx [<-|[]]. apply in_map_iff in Hx as (e & He & Hin).
      specialize (Hb e Hin). simpl in Hb. lia.
    + apply Forall_map, Forall_app. split.
      * apply Forall_forall. intros e He. rewrite set_text_ref.
        specialize (Hb e He). simpl in Hb. lia.
      * constructor; [|constructor]. rewrite set_text_ref. simpl. lia.
    + apply Forall_app. split.
      * apply Forall_forall. intros tm Hin. specialize (Ht tm Hin).
        simpl in Ht. lia.
      * constructor; [|constructor]. simpl. lia.
Qed.

(** A status update leaves the text of every other slot as it was. *)
Lemma setStatus_text_other i msg isError p :
  well_formed p -> i <> WS_STATUS ->
  text_of i (body (snd (setStatus msg isError p))) = text_of i (body p).
Proof.
  intros Hwf Hi. pose proof Hwf as (Hnd & _).
  assert (Hother : forall r' b, NoDup (map ref b) ->
            (forall r, find_id i b = Some r -> r <> r') ->
            text_of i (map (set_text r' msg) b) = text_of i b).
  { intros r' b _ H. destruct (find_id i b) as [r|] eqn:E.
    - apply (text_of_other i r r' msg b E). now apply H.
    - rewrite (text_of_absent _ _ _ _ E). symmetry. now apply text_of_none. }
  unfold setStatus, bind, getElementById. cbn [fst snd].
  destruct (find_id WS_STATUS (body p)) as [r|] eqn:E; cbn.
  - apply Hother; [assumption|]. intros r0 Hr0.
    apply (distinct_slots i WS_STATUS r0 r (body p)); auto.
  - set (stat := mkElement (fresh p) "div" WS_STATUS EmptyString
                           (status_style isError)).
    assert (Hnew : Forall (fun e => String.eqb (id e) i = false) [stat]).
    { constructor; [|constructor]. cbn [id stat].
      apply String.eqb_neq. congruence. }
    rewrite <- (text_of_app i (body p) [stat] Hnew).
    destruct (find_id i (body p ++ [stat])) as [r|] eqn:E'.
    + apply (text_of_other i r (fresh p) msg _ E').
      rewrite (find_id_app i _ _ Hnew) in E'.
      pose proof (find_id_ref_bound i r p Hwf E'). lia.
    + rewrite (text_of_absent _ _ _ _ E'). symmetry. now apply text_of_none.
Qed.

Lemma text_of_banner e b :
  banners b = [e] -> text_of WS_STATUS b = Some (textContent e).
Proof.
  unfold banners, text_of. induction b as [|x b IH]; simpl; [discriminate|].
  destruct (String.eqb (id x) WS_STATUS); [|exact IH].
  now intros [= -> _].
Qed.

Lemma style_of_banner e prop b :
  banners b = [e] -> style_of WS_STATUS prop b = assoc prop (style e).
Proof.
  unfold banners, style_of. induction b as [|x b IH]; simpl; [discriminate|].
  destruct (String.eqb (id x) WS_STATUS); [|exact IH].
  now intros [= -> _].
Qed.

(** A banner that the update had to create takes the colour asked for. *)
Lemma setStatus_created msg isError p :
  banners (body p) = [] ->
  let p' := snd (setStatus msg isError p) in
  text_of WS_STATUS (body p') = Some msg
  /\ style_of WS_STATUS "background" (body p')
     = Some (if isError then "#c92a2a" else "#2776ea").
Proof.
  intros H0. cbv zeta.
  assert (Hb : banner_bound p) by (unfold banner_bound; rewrite H0; simpl; lia).
  destruct (setStatus_banner msg isError p Hb) as (e & He & Htx & _ & _ & Hnew).
  rewrite (text_of_banner e _ He), (style_of_banner e _ _ He), Htx.
  rewrite (Hnew H0). split; reflexivity.
Qed.

(** A banner that is already there keeps its style: only its text is
    written. *)
Lemma setStatus_reused msg isError e0 p :
  banners (body p) = [e0] ->
  let p' := snd (setStatus msg isError p) in
  text_of WS_STATUS (body p') = Some msg
  /\ forall prop, style_of WS_STATUS prop (body p') = assoc prop (style e0).
Proof.
  intros H0. cbv zeta.
  assert (Hb : banner_bound p) by (unfold banner_bound; rewrite H0; simpl; lia).
  destruct (setStatus_banner msg isError p Hb) as (e & He & Htx & _ & Hold & _).
  rewrite (text_of_banner e _ He), Htx. split; [reflexivity|].
  intros prop. rewrite (style_of_banner e _ _ He), (Hold e0 H0). reflexivity.
Qed.

Lemma bind_Normal {A B} (m : Handler A) (k : A -> Handler B) p a :
  fst (m p) = Normal a -> bind m k p = k a (snd (m p)).
Proof. unfold bind. destruct (m p) as [c q]. simpl. now intros ->. Qed.

Lemma setStatus_returns msg isError p :
  fst (setStatus msg isError p) = Normal tt.
Proof.
  unfold setStatus, bind, getElementById. cbn [fst snd].
  now destruct (find_id WS_STATUS (body p)).
Qed.

(** On close both scripts overwrite each of their mirrors that is present,
    and the banner reads the same text. *)
Lemma onclose_mirrors p :
  well_formed p -> banner_bound p ->
  let shown := option_map (fun _ : string => DISCONNECTED) in
  let dashboard := body (snd (Dashboard.onclose p)) in
  let monitoring := body (snd (LiveMonitoring.onclose p)) in
  text_of "live-data" dashboard = shown (text_of "live-data" (body p))
  /\ text_of "alerts-area" dashboard = shown (text_of "alerts-area" (body p))
  /\ text_of WS_STATUS dashboard = Some DISCONNECTED
  /\ text_of "alerts-area" monitoring = shown (text_of "alerts-area" (body p))
  /\ text_of WS_STATUS monitoring = Some DISCONNECTED.
Proof.
  intros Hwf Hb. cbv zeta.
  set (p1 := snd (setStatus DISCONNECTED true p)).
  assert (Hwf1 : well_formed p1) by now apply setStatus_well_formed.
  pose proof Hwf1 as (Hnd1 & _).
  assert (Hbanner : text_of WS_STATUS (body p1) = Some DISCONNECTED).
  { destruct (setStatus_banner DISCONNECTED true p Hb) as (e & He & Htx & _).
    fold p1 in He. now rewrite (text_of_banner e _ He), Htx. }
  assert (Hlive : text_of "live-data" (body p1) = text_of "live-data" (body p))
    by (apply setStatus_text_other; [assumption|discriminate]).
  assert (Halert : text_of "alerts-area" (body p1)
                   = text_of "alerts-area" (body p))
    by (apply setStatus_text_other; [assumption|discriminate]).
  assert (HD : snd (Dashboard.onclose p)
               = mirrored "alerts-area" DISCONNECTED
                   (mirrored "live-data" DISCONNECTED p1)).
  { unfold Dashboard.onclose. fold DISCONNECTED.
    rewrite (bind_Normal _ _ p tt (setStatus_returns _ _ p)). fold p1.
    unfold bind at 1 2, getElementById. rewrite mirror_step.
    unfold bind, getElementById. now rewrite mirror_step. }
  assert (HM : snd (LiveMonitoring.onclose p)
               = mirrored "alerts-area" DISCONNECTED p1).
  { unfold LiveMonitoring.onclose. fold DISCONNECTED.
    rewrite (bind_Normal _ _ p tt (setStatus_returns _ _ p)). fold p1.
    unfold bind, getElementById. now rewrite mirror_step. }
  rewrite HD, HM.
  assert (Hnd2 : NoDup (map ref (body (mirrored "live-data" DISCONNECTED p1))))
    by now rewrite mirrored_refs.
  repeat split.
  - rewrite mirrored_text_other by (assumption || discriminate).
    now rewrite mirrored_text, Hlive.
  - rewrite mirrored_text, mirrored_text_other by (assumption || discriminate).
    now rewrite Halert.
  - now rewrite !mirrored_text_other by (assumption || discriminate).
  - now rewrite mirrored_text, Halert.
  - now rewrite mirrored_text_other by (assumption || discriminate).
Qed.

(** An error alone touches no mirror. *)
Lemma onerror_keeps_mirrors i p :
  well_formed p -> i <> WS_STATUS ->
  text_of i (body (snd (Dashboard.onerror p))) = text_of i (body p)
  /\ text_of i (body (snd (LiveMonitoring.onerror p))) = text_of i (body p).
Proof. intros Hwf Hi. split; now apply setStatus_text_other. Qed.

(* ================================================================== *)
(** ** Pages stay well formed *)

Lemma NoDup_map_filter {X Y} (f : X -> Y) (g : X -> bool) l :
  NoDup (map f l) -> NoDup (map f (filter g l)).
Proof.
  induction l as [|x l IH]; simpl; [trivial|].
  intros H. inversion H as [|? ? Hnotin Hnd]; subst.
  destruct (g x); simpl; [|auto]. constructor; [|auto].
  intros Hin. apply Hnotin. apply in_map_iff in Hin as (y & Hy & Hiny).
  apply filter_In in Hiny as [Hiny _]. rewrite <- Hy. now apply in_map.
Qed.

Lemma Forall_filter {X} (P : X -> Prop) (g : X -> bool) l :
  Forall P l -> Forall P (filter g l).
Proof.
  rewrite !Forall_forall. intros H x Hx. apply filter_In in Hx as [Hx _]. auto.
Qed.

Lemma well_formed_set_textContent r s p :
  well_formed p -> well_formed (snd (set_textContent r s p)).
Proof.
  intros (Hnd & Hb & Ht). unfold well_formed. simpl.
  rewrite map_map, (map_ext _ ref (set_text_ref r s)).
  repeat split; [assumption| |assumption].
  apply Forall_map. eapply Forall_impl; [|exact Hb].
  intros e He. now rewrite set_text_ref.
Qed.

Lemma well_formed_showToast message level p :
  well_formed p -> well_formed (snd (showToast message level p)).
Proof.
  intros H. apply (emits_well_formed [] [(message, level)] p); [assumption|].
  apply emits_toast, emits_nothing.
Qed.

Lemma well_formed_elapse ms p :
  well_formed p -> well_formed (snd (elapse ms p)).
Proof.
  intros (Hnd & Hb & Ht). unfold well_formed.
  rewrite elapse_body. simpl. repeat split.
  - now apply NoDup_map_filter.
  - now apply Forall_filter.
  - now apply Forall_filter.
Qed.

(** Every page either script reaches from a well-formed page is well
    formed. *)
Lemma reachable_well_formed (JSON_parse : string -> option value) events p :
  well_formed p ->
  well_formed (Dashboard.run JSON_parse events p)
  /\ well_formed (LiveMonitoring.run JSON_parse events p).
Proof.
  intros H. split;
    [apply (preserves_dashboard_run well_formed)
    |apply (preserves_monitoring_run well_formed)];
    auto using well_formed_set_textContent, well_formed_showToast,
      setStatus_well_formed, well_formed_elapse.
Qed.

(* ================================================================== *)
(** ** The two surfaces of the dashboard *)

(** An instant threat with data on a page with an alerts-area: past the two
    mirrors, the handler only emits the toasts. *)
Lemma dashboard_threat_page m d p :
  find_id "alerts-area" (body p) <> None ->
  strict_eq (field (Some m) "type") "instant_threat" = true ->
  field (Some m) "data" = Some d ->
  truthy (Some d) = true ->
  emits [] (notifications m)
        (mirrored "alerts-area" (JSON_stringify d)
           (mirrored "live-data" (JSON_stringify m) p))
        (snd (Dashboard.process m p)).
Proof.
  intros Harea Hty Hd Htr.
  set (p1 := mirrored "live-data" (JSON_stringify m) p).
  assert (Harea1 : find_id "alerts-area" (body p1)
                   = find_id "alerts-area" (body p))
    by apply mirrored_find_id.
  unfold Dashboard.process, bind at 1 2, getElementById.
  rewrite mirror_step. fold p1. unfold bind at 1. cbn [fst snd].
  rewrite Harea1.
  destruct (find_id "alerts-area" (body p)) as [area|] eqn:E; [|contradiction].
  assert (Hm : m <> JNull) by (intros ->; discriminate).
  rewrite (member_message m "type" Hm), bind_lift_Normal, Hty.
  rewrite (member_message m "data" Hm), bind_lift_Normal, Hd, Htr.
  unfold bind at 1. cbn [set_textContent].
  replace (with_body _ p1) with (mirrored "alerts-area" (JSON_stringify d) p1)
    by (unfold mirrored; now rewrite Harea1).
  rewrite <- Hd. apply escalate_emits; [assumption|now rewrite Hd|].
  apply emits_nothing.
Qed.

(** Any other message stops past the live-data mirror. *)
Lemma dashboard_other_page m p :
  strict_eq (field (Some m) "type") "instant_threat" = false
  \/ truthy (field (Some m) "data") = false ->
  snd (Dashboard.process m p) = mirrored "live-data" (JSON_stringify m) p.
Proof.
  intros Hother.
  set (p1 := mirrored "live-data" (JSON_stringify m) p).
  unfold Dashboard.process, bind at 1 2, getElementById.
  rewrite mirror_step. fold p1. unfold bind at 1. cbn [fst snd].
  destruct (find_id "alerts-area" (body p1)) as [area|]; [|reflexivity].
  destruct (value_null_dec m) as [->|Hm]; [reflexivity|].
  rewrite (member_message m "type" Hm), bind_lift_Normal.
  destruct (strict_eq (field (Some m) "type") "instant_threat") eqn:Hty;
    [|reflexivity].
  destruct Hother as [H|Hfalsy]; [discriminate|].
  rewrite (member_message m "data" Hm), bind_lift_Normal.
  destruct (field (Some m) "data") as [d|]; [|reflexivity].
  now rewrite Hfalsy.
Qed.

(* ================================================================== *)
(** ** The handlers at work *)

(** The CRITICAL threat of Chennai on the dashboard: both mirrors written,
    one red toast, to be removed 5500 ms later. *)
Example chennai_on_the_dashboard :
  let p := snd (Dashboard.onmessage frames (frame_of chennai) dashboard_page) in
  map textContent (body p)
  = [ JSON_stringify chennai;
      JSON_stringify (JObject [ ("location", JString "Chennai");
                                ("threat_level", JString "CRITICAL") ]);
      "CRITICAL THREAT: Chennai" ]
  /\ map (fun e => assoc "background" (style e)) (body p)
     = [None; None; Some "#dc2626"]
  /\ timers p = [mkTimer 5500 2].
Proof. vm_compute. repeat split. Qed.

(** The HIGH threat of Goa on the monitoring page. *)
Example goa_on_the_monitoring_page :
  let p := snd (LiveMonitoring.onmessage frames (frame_of goa) monitoring_page) in
  map textContent (body p) = [JSON_stringify goa; "HIGH THREAT: Goa"]
  /\ map (fun e => assoc "background" (style e)) (body p)
     = [None; Some "#fbbf24"]
  /\ timers p = [mkTimer 5500 1].
Proof. vm_compute. repeat split. Qed.

(** The frame [null] decodes, is mirrored, and then stops the handler of
    [live_monitoring.js] on the TypeError of [alert.type]; [dashboard.js]
    meets the same error when the page has an alerts-area, and none
    otherwise. *)
Example null_message :
  LiveMonitoring.onmessage frames "null" monitoring_page
  = (Throw TypeError, mirrored "alerts-area" "null" monitoring_page)
  /\ Dashboard.onmessage frames "null" dashboard_page
     = (Throw TypeError, mirrored "live-data" "null" dashboard_page)
  /\ Dashboard.onmessage frames "null" bare_page
     = (Normal tt, mirrored "live-data" "null" bare_page).
Proof. vm_compute. repeat split. Qed.

(** A location that cannot be converted stops the handler on the TypeError of
    the template literal, after the mirror and before any toast. *)
Example unprintable_location :
  notifications unprintable = []
  /\ LiveMonitoring.onmessage frames (frame_of unprintable) monitoring_page
     = (Throw TypeError,
        mirrored "alerts-area" (JSON_stringify unprintable) monitoring_page).
Proof. vm_compute. repeat split. Qed.

(** The banner of an open, reused by the error that follows it, is removed
    by the timer of the open: 3500 ms after the open, 2500 ms after the
    error. *)
Example banner_of_an_early_error :
  let p := Dashboard.run frames [EvOpen; EvElapse 1000; EvError] empty_page in
  map textContent (banners (body p)) = ["WebSocket error occurred"]
  /\ timers p = [mkTimer 3500 0; mkTimer 4500 0]
  /\ banners (body (Dashboard.run frames [EvElapse 2499] p)) <> []
  /\ banners (body (Dashboard.run frames [EvElapse 2500] p)) = [].
Proof. vm_compute. repeat split. discriminate. Qed.

(* ================================================================== *)
(** ** The specification, claim by claim *)

(** C1 (as amended).  A frame decodes to a message [m] of type
    [instant_threat] whose [data.threat_level] is [CRITICAL] (so its data is
    present), and [shown] is what the template literal makes of
    [data.location].  Then [live_monitoring.js] emits exactly one toast, of
    text [CRITICAL THREAT: shown] and level [danger]; [dashboard.js] does so
    when the page has an alerts-area.  Likewise for [HIGH], with
    [HIGH THREAT: shown] and level [warning].  And whatever the message,
    either script emits at most one toast for it. *)
Theorem threat_toast (JSON_parse : string -> option value) frame m p :
  JSON_parse frame = Some m ->
  well_formed p ->
  let monitoring := snd (LiveMonitoring.onmessage JSON_parse frame p) in
  let dashboard := snd (Dashboard.onmessage JSON_parse frame p) in
  (forall level style shown,
      (level, style) = ("CRITICAL", "danger")
      \/ (level, style) = ("HIGH", "warning") ->
      strict_eq (field (Some m) "type") "instant_threat" = true ->
      strict_eq (threat_level m) level = true ->
      template (location_of m) = Normal shown ->
      let toast := (level ++ " THREAT: " ++ shown, style) in
      emits MONITORING_SLOTS [toast] p monitoring
      /\ (find_id "alerts-area" (body p) <> None ->
          emits DASHBOARD_SLOTS [toast] p dashboard))
  /\ (exists ts, length ts <= 1 /\ emits MONITORING_SLOTS ts p monitoring)
  /\ (exists ts, length ts <= 1 /\ emits DASHBOARD_SLOTS ts p dashboard).
Proof.
  intros Hdec Hwf monitoring dashboard. subst monitoring dashboard.
  rewrite (monitoring_onmessage_decoded _ _ _ _ Hdec),
          (dashboard_onmessage_decoded _ _ _ _ Hdec).
  pose proof (monitoring_emits m p Hwf) as HM.
  pose proof (dashboard_emits m p Hwf) as HD.
  split; [|split].
  - intros level style shown Hcase Hty Hlv Hloc toast. subst toast.
    assert (Hn : notifications m = [(level ++ " THREAT: " ++ shown, style)]).
    { destruct Hcase as [[= -> ->]|[= -> ->]];
        [now apply notifications_critical|now apply notifications_high]. }
    rewrite Hn in HM, HD. split; [exact HM|].
    intros Hpresent. now destruct (find_id "alerts-area" (body p)).
  - exists (notifications m). split; [apply notifications_length|exact HM].
  - eexists. split; [|exact HD].
    destruct (find_id _ _); [apply notifications_length|simpl; lia].
Qed.

Lemma threat_toast_witness :
  emits DASHBOARD_SLOTS [("CRITICAL THREAT: Chennai", "danger")] dashboard_page
        (snd (Dashboard.onmessage frames (frame_of chennai) dashboard_page)).
Proof.
  refine (proj2 (proj1 (threat_toast frames (frame_of chennai) chennai
                          dashboard_page _ _)
                   "CRITICAL" "danger" "Chennai" _ _ _ _) _).
  - reflexivity.
  - apply well_formedb_sound. reflexivity.
  - left. reflexivity.
  - reflexivity.
  - reflexivity.
  - reflexivity.
  - simpl. discriminate.
Defined.

(** C1 as it stands fails on [dashboard.js]: on a page without an
    alerts-area the CRITICAL threat of Chennai is mirrored in live-data and
    no toast is emitted. *)
Lemma critical_threat_without_alerts_area :
  frames (frame_of chennai) = Some chennai
  /\ strict_eq (field (Some chennai) "type") "instant_threat" = true
  /\ strict_eq (threat_level chennai) "CRITICAL" = true
  /\ well_formed bare_page
  /\ ~ emits DASHBOARD_SLOTS [("CRITICAL THREAT: Chennai", "danger")] bare_page
         (snd (Dashboard.onmessage frames (frame_of chennai) bare_page))
  /\ map id (body (snd (Dashboard.onmessage frames (frame_of chennai) bare_page)))
     = ["live-data"]
  /\ timers (snd (Dashboard.onmessage frames (frame_of chennai) bare_page)) = [].
Proof.
  split; [reflexivity|]. split; [reflexivity|]. split; [reflexivity|].
  split; [apply well_formedb_sound; reflexivity|].
  split; [|split; reflexivity].
  intros (_ & Ht & _). vm_compute in Ht. discriminate.
Qed.

(** C2 (as amended).  Once a frame that decodes to [m] is handled, the
    surface the script mirrors the whole message in (live-data for
    [dashboard.js], alerts-area for [live_monitoring.js]), when the page has
    it, shows the pretty-printed serialisation of the whole of [m], whatever
    it showed before and whether or not [m] is a threat.  The alerts-area of
    [dashboard.js] is another matter: it shows the pretty-printed
    [data.data] of an instant threat whose data is truthy, and keeps what it
    showed after any other message. *)
Theorem mirror_shows_message (JSON_parse : string -> option value) frame m p :
  JSON_parse frame = Some m ->
  well_formed p ->
  let dashboard := body (snd (Dashboard.onmessage JSON_parse frame p)) in
  let monitoring := body (snd (LiveMonitoring.onmessage JSON_parse frame p)) in
  text_of "live-data" dashboard
  = option_map (fun _ => JSON_stringify m) (text_of "live-data" (body p))
  /\ text_of "alerts-area" monitoring
     = option_map (fun _ => JSON_stringify m) (text_of "alerts-area" (body p))
  /\ (forall d,
        strict_eq (field (Some m) "type") "instant_threat" = true ->
        field (Some m) "data" = Some d ->
        truthy (Some d) = true ->
        text_of "alerts-area" dashboard
        = option_map (fun _ => JSON_stringify d)
                     (text_of "alerts-area" (body p)))
  /\ (strict_eq (field (Some m) "type") "instant_threat" = false
      \/ truthy (field (Some m) "data") = false ->
      text_of "alerts-area" dashboard = text_of "alerts-area" (body p)).
Proof.
  intros Hdec Hwf. cbv zeta. pose proof Hwf as (Hnd & _).
  rewrite (monitoring_onmessage_decoded _ _ _ _ Hdec),
          (dashboard_onmessage_decoded _ _ _ _ Hdec).
  split; [now apply dashboard_mirror|].
  split; [apply monitoring_mirror|]. split.
  - intros d Hty Hd Htr.
    destruct (find_id "alerts-area" (body p)) as [area|] eqn:E.
    + rewrite (emits_text "alerts-area" _ _ _ ltac:(discriminate)
                 (dashboard_threat_page m d p ltac:(congruence) Hty Hd Htr)).
      rewrite mirrored_text, mirrored_text_other by (assumption || discriminate).
      reflexivity.
    + pose proof (dashboard_escalation m p) as H. cbv zeta in H.
      rewrite E in H. rewrite H.
      rewrite mirrored_text_other by (assumption || discriminate).
      apply text_of_none in E. now rewrite E.
  - intros Hother. rewrite (dashboard_other_page m p Hother).
    apply mirrored_text_other; [assumption|discriminate].
Qed.

Lemma mirror_shows_message_witness :
  text_of "live-data"
    (body (snd (Dashboard.onmessage frames "{}" dashboard_page)))
  = Some "{}"
  /\ text_of "alerts-area"
       (body (snd (LiveMonitoring.onmessage frames "{}" dashboard_page)))
     = Some "{}".
Proof.
  pose proof (mirror_shows_message frames "{}" (JObject []) dashboard_page
                eq_refl (well_formedb_sound dashboard_page eq_refl)) as H.
  exact (conj (proj1 H) (proj1 (proj2 H))).
Defined.

(** C2 as it stands fails on the alerts-area of [dashboard.js], the second
    passive surface of that script: the message [{}] leaves it showing what
    it showed, and the CRITICAL threat of Chennai puts [data.data] there, not
    the whole message. *)
Lemma dashboard_alerts_area_not_whole_message :
  let after frame :=
    text_of "alerts-area"
      (body (snd (Dashboard.onmessage frames frame dashboard_page))) in
  well_formed dashboard_page
  /\ frames "{}" = Some (JObject [])
  /\ after "{}" = Some "stale"
  /\ after "{}" <> Some (JSON_stringify (JObject []))
  /\ frames (frame_of chennai) = Some chennai
  /\ after (frame_of chennai)
     = Some (JSON_stringify (JObject [ ("location", JString "Chennai");
                                       ("threat_level", JString "CRITICAL") ]))
  /\ after (frame_of chennai) <> Some (JSON_stringify chennai).
Proof.
  cbv zeta. split; [apply well_formedb_sound; reflexivity|].
  repeat split; try reflexivity; vm_compute; discriminate.
Qed.



(** C4, at the input where the code departs from it: the connection opens
    and closes a second later, while the banner of the open is still up.
    Both mirrors and the banner read [WebSocket disconnected], but the banner
    keeps the background of a plain status ([#2776ea]) instead of the one
    [setStatus] gives an error ([#c92a2a]). *)
Theorem close_after_open_banner_style :
  let p := Dashboard.run frames [EvOpen; EvElapse 1000; EvClose]
             dashboard_page in
  text_of "live-data" (body p) = Some "WebSocket disconnected"
  /\ text_of "alerts-area" (body p) = Some "WebSocket disconnected"
  /\ text_of WS_STATUS (body p) = Some "WebSocket disconnected"
  /\ style_of WS_STATUS "background" (body p) = Some "#2776ea"
  /\ assoc "background" (status_style true) = Some "#c92a2a".
Proof. vm_compute. repeat split. Qed.

(** C5.  A frame that [JSON.parse] rejects makes either handler end with the
    uncaught SyntaxError of the decode step and leaves the page exactly as it
    was: no mirror is written, no toast emitted. *)
Theorem malformed_frame_unhandled
        (JSON_parse : string -> option value) frame p :
  JSON_parse frame = None ->
  Dashboard.onmessage JSON_parse frame p = (Throw SyntaxError, p)
  /\ LiveMonitoring.onmessage JSON_parse frame p = (Throw SyntaxError, p).
Proof.
  intros H. unfold Dashboard.onmessage, LiveMonitoring.onmessage,
    Dashboard.decode, LiveMonitoring.decode. rewrite H. split; reflexivity.
Qed.

Lemma malformed_frame_unhandled_witness :
  Dashboard.onmessage frames "storm surge at Puri" dashboard_page
  = (Throw SyntaxError, dashboard_page)
  /\ LiveMonitoring.onmessage frames "storm surge at Puri" dashboard_page
     = (Throw SyntaxError, dashboard_page).
Proof.
  apply (malformed_frame_unhandled frames "storm surge at Puri" dashboard_page).
  reflexivity.
Defined.

(** C6, at the input where the code departs from it: an error one second
    after the open, no close following.  The mirrors keep what the last
    message left in them and the banner reads [WebSocket error occurred],
    but on the background of a plain status ([#2776ea]), not on the one
    [setStatus] gives an error ([#c92a2a]). *)
Theorem error_after_open_banner_style :
  let p0 := Dashboard.run frames [EvMessage (frame_of goa); EvOpen; EvElapse 1000]
              dashboard_page in
  let p := Dashboard.run frames [EvError] p0 in
  text_of "live-data" (body p) = text_of "live-data" (body p0)
  /\ text_of "alerts-area" (body p) = text_of "alerts-area" (body p0)
  /\ text_of WS_STATUS (body p) = Some "WebSocket error occurred"
  /\ style_of WS_STATUS "background" (body p) = Some "#2776ea"
  /\ assoc "background" (status_style true) = Some "#c92a2a".
Proof. vm_compute. repeat split. Qed.

(** C7 (as amended).  Either script opens one connection when it starts, to
    [ws://] followed by the host of the page and [/ws], and no event makes it
    open another; the scheme is [ws] whatever the scheme of the page, the
    URL depending on the host alone. *)
Theorem one_plain_connection
        (JSON_parse : string -> option value) loc events p :
  let opened := snd (script loc p) in
  sockets (Dashboard.run JSON_parse events opened)
  = (sockets p ++ [("ws://" ++ host loc ++ "/ws")%string])%list
  /\ sockets (LiveMonitoring.run JSON_parse events opened)
     = (sockets p ++ [("ws://" ++ host loc ++ "/ws")%string])%list
  /\ forall loc', host loc' = host loc -> ws_url loc' = ws_url loc.
Proof.
  intros opened.
  split; [|split];
    [apply (preserves_dashboard_run (fun q => sockets q = sockets opened))
    |apply (preserves_monitoring_run (fun q => sockets q = sockets opened))
    |unfold ws_url; now intros loc' ->];
    trivial; intros; (rewrite sockets_setStatus || simpl); assumption.
Qed.

(** C7 as it stands fails: a page served over https still gets a [ws://]
    connection, not the [wss://] one that would mirror its scheme. *)
Lemma secure_page_plain_socket :
  protocol secure_location = "https:"
  /\ sockets (snd (script secure_location empty_page))
     = ["ws://coast.example/ws"]
  /\ mirrored_url secure_location = "wss://coast.example/ws"
  /\ ws_url secure_location <> mirrored_url secure_location.
Proof. repeat split; try reflexivity. discriminate. Qed.

(** C8 (as amended).  [N] frames in a row, each decoding to a message that
    qualifies with level [CRITICAL] or [HIGH], give [N] toasts, one per
    message and in order, equal messages included: in [live_monitoring.js]
    always, in [dashboard.js] when the page has an alerts-area.  Each toast
    has a removal of its own, due [TOAST_DWELL] (5500 ms, that is 5.5 s)
    after it was shown: it is on the page until then and gone from then on,
    whatever the other toasts and callbacks. *)
Theorem every_threat_toasted (JSON_parse : string -> option value) fs ms p :
  Forall2 (fun f m => JSON_parse f = Some m) fs ms ->
  Forall qualifies ms ->
  well_formed p ->
  let toasts := concat (map notifications ms) in
  let monitoring := LiveMonitoring.run JSON_parse (map EvMessage fs) p in
  let dashboard := Dashboard.run JSON_parse (map EvMessage fs) p in
  length toasts = length ms
  /\ TOAST_DWELL = 5500%N
  /\ emits MONITORING_SLOTS toasts p monitoring
  /\ Forall (fun t => expires_after TOAST_DWELL t monitoring)
            (toasts_from (fresh p) toasts)
  /\ (find_id "alerts-area" (body p) <> None ->
      emits DASHBOARD_SLOTS toasts p dashboard
      /\ Forall (fun t => expires_after TOAST_DWELL t dashboard)
                (toasts_from (fresh p) toasts)).
Proof.
  intros Hdec Hq Hwf toasts monitoring dashboard.
  pose proof (monitoring_run_emits JSON_parse fs ms p Hdec Hwf) as HM.
  split; [|split; [reflexivity|split; [exact HM|split]]].
  - subst toasts. rewrite concat_singletons, length_map; [reflexivity|].
    apply Forall_map. eapply Forall_impl; [|exact Hq].
    apply qualifies_one.
  - apply Forall_forall. intros t Ht. eapply toast_dwell; eassumption.
  - intros Harea.
    pose proof (dashboard_run_emits JSON_parse fs ms p Hdec Hwf Harea) as HD.
    split; [exact HD|].
    apply Forall_forall. intros t Ht. eapply toast_dwell; eassumption.
Qed.

Lemma every_threat_toasted_witness :
  emits MONITORING_SLOTS
        [("HIGH THREAT: Goa", "warning"); ("HIGH THREAT: Goa", "warning");
         ("CRITICAL THREAT: Chennai", "danger")]
        monitoring_page
        (LiveMonitoring.run frames
           [EvMessage (frame_of goa); EvMessage (frame_of goa);
            EvMessage (frame_of chennai)] monitoring_page).
Proof.
  refine (proj1 (proj2 (proj2
            (every_threat_toasted frames
               [(frame_of goa); (frame_of goa); (frame_of chennai)]
               [goa; goa; chennai] monitoring_page _ _ _)))).
  - repeat constructor.
  - repeat constructor; (right; reflexivity) || (left; reflexivity)
                        || (eexists; reflexivity).
  - apply well_formedb_sound. reflexivity.
Defined.

(** C8 as it stands fails on [dashboard.js]: on a page without an
    alerts-area two HIGH threats in a row leave the page with its live-data
    slot alone, no toast and no pending removal. *)
Lemma repeated_threats_without_alerts_area :
  Forall qualifies [goa; goa]
  /\ well_formed bare_page
  /\ ~ emits DASHBOARD_SLOTS (concat (map notifications [goa; goa])) bare_page
         (Dashboard.run frames [EvMessage (frame_of goa); EvMessage (frame_of goa)]
            bare_page)
  /\ map id (body (Dashboard.run frames
                     [EvMessage (frame_of goa); EvMessage (frame_of goa)] bare_page))
     = ["live-data"]
  /\ timers (Dashboard.run frames
               [EvMessage (frame_of goa); EvMessage (frame_of goa)] bare_page) = [].
Proof.
  split; [|split; [|split; [|split]]].
  - repeat constructor; (right; reflexivity) || (eexists; reflexivity).
  - apply well_formedb_sound. reflexivity.
  - intros (_ & Ht & _). vm_compute in Ht. discriminate.
  - reflexivity.
  - reflexivity.
Qed.

(** C9.  On a page with at most one element in the banner slot, no sequence
    of events ever makes either script show two.  A status update leaves
    exactly one, reading the new text: the element that was there, with its
    text overwritten, or a new one when there was none; and it schedules the
    removal of that element [STATUS_DWELL] (3500 ms, that is 3.5 s) later,
    after which the slot is empty. *)
Theorem single_status_banner
        (JSON_parse : string -> option value) events msg isError p :
  length (banners (body p)) <= 1 ->
  length (banners (body (Dashboard.run JSON_parse events p))) <= 1
  /\ length (banners (body (LiveMonitoring.run JSON_parse events p))) <= 1
  /\ (let p' := snd (setStatus msg isError p) in
      exists e,
        banners (body p') = [e]
        /\ textContent e = msg
        /\ (forall e0, banners (body p) = [e0] ->
              e = mkElement (ref e0) (tagName e0) (id e0) msg (style e0))
        /\ (banners (body p) = [] ->
              e = mkElement (fresh p) "div" WS_STATUS msg (status_style isError))
        /\ timers p'
           = (timers p ++ [mkTimer (now p + STATUS_DWELL) (ref e)])%list
        /\ STATUS_DWELL = 3500%N
        /\ forall ms, (STATUS_DWELL <= ms)%N ->
                      banners (body (snd (elapse ms p'))) = []).
Proof.
  intros Hb. split; [|split].
  - apply (preserves_dashboard_run banner_bound);
      auto using bound_set_textContent, bound_showToast, bound_setStatus,
        bound_elapse.
  - apply (preserves_monitoring_run banner_bound);
      auto using bound_set_textContent, bound_showToast, bound_setStatus,
        bound_elapse.
  - intros p'. subst p'.
    destruct (setStatus_banner msg isError p Hb)
      as (e & He & Htx & Ht & H1 & H0).
    exists e. repeat split; auto.
    intros ms Hms. now apply setStatus_dwell.
Qed.

Lemma single_status_banner_witness :
  length (banners (body (Dashboard.run frames
            [EvOpen; EvElapse 1000; EvError; EvClose] dashboard_page))) <= 1.
Proof.
  refine (proj1 (single_status_banner frames
                   [EvOpen; EvElapse 1000; EvError; EvClose]
                   "Connected to live updates" false dashboard_page _)).
  simpl. lia.
Defined.

(** C10.  On a page without an alerts-area [dashboard.js] emits no toast,
    whatever the message, a threat of level [CRITICAL] or [HIGH] included.
    [live_monitoring.js] emits on every page, with or without such a slot,
    the toasts of the severity mapping, which the message alone decides: the
    one toast of a message that qualifies. *)
Theorem dashboard_toast_needs_alerts_area
        (JSON_parse : string -> option value) frame m p :
  JSON_parse frame = Some m ->
  well_formed p ->
  find_id "alerts-area" (body p) = None ->
  emits DASHBOARD_SLOTS [] p (snd (Dashboard.onmessage JSON_parse frame p))
  /\ emits MONITORING_SLOTS (notifications m) p
           (snd (LiveMonitoring.onmessage JSON_parse frame p))
  /\ (forall q, well_formed q ->
        emits MONITORING_SLOTS (notifications m) q
              (snd (LiveMonitoring.onmessage JSON_parse frame q)))
  /\ (qualifies m -> exists toast, notifications m = [toast]).
Proof.
  intros Hdec Hwf Harea.
  rewrite (dashboard_onmessage_decoded _ _ _ _ Hdec).
  pose proof (dashboard_emits m p Hwf) as HD. rewrite Harea in HD.
  assert (Hall : forall q, well_formed q ->
            emits MONITORING_SLOTS (notifications m) q
                  (snd (LiveMonitoring.onmessage JSON_parse frame q))).
  { intros q Hq. rewrite (monitoring_onmessage_decoded _ _ _ _ Hdec).
    now apply monitoring_emits. }
  split; [exact HD|]. split; [now apply Hall|]. split; [exact Hall|].
  intros Hq. pose proof (qualifies_one m Hq) as Hlen.
  destruct (notifications m) as [|toast [|]]; try discriminate. now exists toast.
Qed.

Lemma dashboard_toast_needs_alerts_area_witness :
  emits DASHBOARD_SLOTS [] bare_page
        (snd (Dashboard.onmessage frames (frame_of chennai) bare_page))
  /\ emits MONITORING_SLOTS [("CRITICAL THREAT: Chennai", "danger")] bare_page
           (snd (LiveMonitoring.onmessage frames (frame_of chennai) bare_page)).
Proof.
  pose proof (dashboard_toast_needs_alerts_area frames (frame_of chennai)
                chennai bare_page eq_refl
                (well_formedb_sound bare_page eq_refl) eq_refl) as H.
  split; [exact (proj1 H)|exact (proj1 (proj2 H))].
Defined.

(* ================================================================== *)
(** ** Further properties of the two scripts *)

(* ================================================================== *)
(** ** Status updates, exactly *)

Lemma set_text_fresh r s b :
  Forall (fun e => ref e < r) b -> map (set_text r s) b = b.
Proof.
  induction 1 as [|e b He _ IH]; simpl; [reflexivity|].
  rewrite IH. unfold set_text.
  destruct (Nat.eqb (ref e) r) eqn:E; [|reflexivity].
  apply Nat.eqb_eq in E. lia.
Qed.

Lemma banners_nil_find b : banners b = [] -> find_id WS_STATUS b = None.
Proof.
  unfold banners. induction b as [|e b IH]; simpl; [reflexivity|].
  destruct (String.eqb (id e) WS_STATUS); [discriminate|exact IH].
Qed.

(** With no banner in the document a status update appends one, of the
    colour asked for, and schedules its removal. *)
Lemma setStatus_creates msg isError p :
  well_formed p -> banners (body p) = [] ->
  snd (setStatus msg isError p)
  = mkPage (body p ++ [mkElement (fresh p) "div" WS_STATUS msg
                                 (status_style isError)])%list
           (S (fresh p))
           (timers p ++ [mkTimer (now p + STATUS_DWELL) (fresh p)])%list
           (now p) (sockets p).
Proof.
  intros (_ & Hb & _) H0. apply banners_nil_find in H0.
  unfold setStatus, bind, getElementById. cbn [fst snd]. rewrite H0. cbn.
  unfold with_body. cbn. f_equal.
  rewrite map_app, (set_text_fresh _ _ _ Hb). cbn. unfold set_text. cbn.
  now rewrite Nat.eqb_refl.
Qed.

(** With a banner in the document a status update writes its text and
    schedules one more removal of it. *)
Lemma setStatus_reuses msg isError r p :
  find_id WS_STATUS (body p) = Some r ->
  snd (setStatus msg isError p)
  = mkPage (map (set_text r msg) (body p)) (fresh p)
           (timers p ++ [mkTimer (now p + STATUS_DWELL) r])%list
           (now p) (sockets p).
Proof.
  intros H. unfold setStatus, bind, getElementById. cbn [fst snd].
  rewrite H. reflexivity.
Qed.

Lemma style_of_set_text i prop r s b :
  style_of i prop (map (set_text r s) b) = style_of i prop b.
Proof.
  unfold style_of. induction b as [|e b IH]; simpl; [reflexivity|].
  rewrite set_text_id. destruct (String.eqb (id e) i); [|exact IH].
  unfold set_text. now destruct (Nat.eqb (ref e) r).
Qed.

Lemma banners_cons_find b :
  banners b <> [] -> exists r, find_id WS_STATUS b = Some r.
Proof.
  intros H. destruct (find_id WS_STATUS b) eqn:E; [eauto|].
  now apply banners_none in E.
Qed.

(** X1.  [ws.onopen], on a page that shows no banner: either script appends
    one banner, reading its own greeting, in the plain style (background
    [#2776ea]), and schedules its removal 3500 ms later; nothing else on the
    page changes. *)
Theorem open_shows_plain_banner p :
  well_formed p ->
  banners (body p) = [] ->
  let banner text :=
    mkElement (fresh p) "div" WS_STATUS text (status_style false) in
  let removal := mkTimer (now p + 3500) (fresh p) in
  body (snd (Dashboard.onopen p))
  = (body p ++ [banner "Connected to live updates"])%list
  /\ body (snd (LiveMonitoring.onopen p))
     = (body p ++ [banner "Connected to live alerts"])%list
  /\ timers (snd (Dashboard.onopen p)) = (timers p ++ [removal])%list
  /\ timers (snd (LiveMonitoring.onopen p)) = (timers p ++ [removal])%list
  /\ assoc "background" (status_style false) = Some "#2776ea".
Proof.
  intros Hwf H0. cbv zeta. unfold Dashboard.onopen, LiveMonitoring.onopen.
  rewrite !(setStatus_creates _ _ _ Hwf H0). repeat split.
Qed.

Lemma open_shows_plain_banner_witness :
  map textContent (body (snd (Dashboard.onopen dashboard_page)))
  = ["stale"; "stale"; "Connected to live updates"].
Proof.
  pose proof (open_shows_plain_banner dashboard_page
                (well_formedb_sound dashboard_page eq_refl) eq_refl) as H.
  cbv zeta in H. rewrite (proj1 H). reflexivity.
Defined.

(** X2.  [setStatus] on a page that shows a banner: the [isError] flag is
    not looked at.  Both values of the flag give the same page; the banner
    takes the new text and keeps every style property it had, and no element
    is added or removed. *)
Theorem reused_banner_keeps_its_style msg p :
  banners (body p) <> [] ->
  setStatus msg true p = setStatus msg false p
  /\ forall isError,
       let p' := snd (setStatus msg isError p) in
       text_of WS_STATUS (body p') = Some msg
       /\ (forall prop, style_of WS_STATUS prop (body p')
                        = style_of WS_STATUS prop (body p))
       /\ map ref (body p') = map ref (body p).
Proof.
  intros H. destruct (banners_cons_find _ H) as (r & Hr). split.
  - unfold setStatus, bind, getElementById. cbn [fst snd]. now rewrite Hr.
  - intros isError. cbv zeta. rewrite (setStatus_reuses _ _ _ _ Hr). cbn.
    split; [now apply text_of_assigned|]. split.
    + intros prop. apply style_of_set_text.
    + rewrite map_map. apply map_ext. intros e. apply set_text_ref.
Qed.

Lemma reused_banner_keeps_its_style_witness :
  let p := snd (Dashboard.onopen dashboard_page) in
  setStatus "WebSocket error occurred" true p
  = setStatus "WebSocket error occurred" false p.
Proof.
  refine (proj1 (reused_banner_keeps_its_style "WebSocket error occurred"
                   (snd (Dashboard.onopen dashboard_page)) _)).
  vm_compute. discriminate.
Defined.

Lemma dashboard_onclose_page p :
  snd (Dashboard.onclose p)
  = mirrored "alerts-area" DISCONNECTED
      (mirrored "live-data" DISCONNECTED
         (snd (setStatus DISCONNECTED true p))).
Proof.
  unfold Dashboard.onclose. fold DISCONNECTED.
  rewrite (bind_Normal _ _ p tt (setStatus_returns _ _ p)).
  unfold bind at 1 2, getElementById. rewrite mirror_step.
  unfold bind, getElementById. now rewrite mirror_step.
Qed.

Lemma monitoring_onclose_page p :
  snd (LiveMonitoring.onclose p)
  = mirrored "alerts-area" DISCONNECTED (snd (setStatus DISCONNECTED true p)).
Proof.
  unfold LiveMonitoring.onclose. fold DISCONNECTED.
  rewrite (bind_Normal _ _ p tt (setStatus_returns _ _ p)).
  unfold bind, getElementById. now rewrite mirror_step.
Qed.

(** X3.  [ws.onclose] on any page with at most one banner: each mirror the
    script has and the page shows (live-data and alerts-area for
    [dashboard.js], alerts-area for [live_monitoring.js], which leaves
    live-data alone) reads [WebSocket disconnected] whatever it read before,
    and so does the banner, which is red ([#c92a2a]) when the close had to
    create it. *)
Theorem close_overwrites_mirrors p :
  well_formed p ->
  banner_bound p ->
  let shown := option_map (fun _ : string => "WebSocket disconnected") in
  let dashboard := body (snd (Dashboard.onclose p)) in
  let monitoring := body (snd (LiveMonitoring.onclose p)) in
  text_of "live-data" dashboard = shown (text_of "live-data" (body p))
  /\ text_of "alerts-area" dashboard = shown (text_of "alerts-area" (body p))
  /\ text_of WS_STATUS dashboard = Some "WebSocket disconnected"
  /\ text_of "alerts-area" monitoring = shown (text_of "alerts-area" (body p))
  /\ text_of WS_STATUS monitoring = Some "WebSocket disconnected"
  /\ text_of "live-data" monitoring = text_of "live-data" (body p)
  /\ (banners (body p) = [] ->
      style_of WS_STATUS "background" dashboard = Some "#c92a2a"
      /\ style_of WS_STATUS "background" monitoring = Some "#c92a2a").
Proof.
  intros Hwf Hb. cbv zeta.
  destruct (onclose_mirrors p Hwf Hb) as (H1 & H2 & H3 & H4 & H5).
  repeat (split; [assumption|]).
  assert (Hnd1 : NoDup (map ref (body (snd (setStatus DISCONNECTED true p)))))
    by apply (setStatus_well_formed _ _ _ Hwf).
  split.
  - rewrite monitoring_onclose_page.
    rewrite mirrored_text_other by (assumption || discriminate).
    apply setStatus_text_other; [assumption|discriminate].
  - intros H0.
    destruct (setStatus_created DISCONNECTED true p H0) as (_ & Hst).
    rewrite dashboard_onclose_page, monitoring_onclose_page.
    unfold mirrored.
    repeat match goal with
           | |- context [find_id ?i ?b] => destruct (find_id i b)
           end; cbn [body with_body]; rewrite ?style_of_set_text; auto.
Qed.

Lemma close_overwrites_mirrors_witness :
  text_of "live-data" (body (snd (Dashboard.onclose dashboard_page)))
  = Some "WebSocket disconnected".
Proof.
  refine (proj1 (close_overwrites_mirrors dashboard_page _ _)).
  - apply well_formedb_sound. reflexivity.
  - unfold banner_bound. simpl. lia.
Defined.

(** X4.  [ws.onerror], the same in both scripts, on any page with at most
    one banner: the banner reads [WebSocket error occurred], red when the
    error had to create it; every other slot keeps its text, every other
    element stays as it is, and one removal is scheduled. *)
Theorem error_touches_the_banner_only p :
  well_formed p ->
  banner_bound p ->
  let p' := snd (Dashboard.onerror p) in
  LiveMonitoring.onerror p = Dashboard.onerror p
  /\ text_of WS_STATUS (body p') = Some "WebSocket error occurred"
  /\ (forall i, i <> WS_STATUS -> text_of i (body p') = text_of i (body p))
  /\ (forall e, In e (body p) -> id e <> WS_STATUS -> In e (body p'))
  /\ (banners (body p) = [] ->
      style_of WS_STATUS "background" (body p') = Some "#c92a2a")
  /\ length (timers p') = S (length (timers p)).
Proof.
  intros Hwf Hb. cbv zeta. unfold Dashboard.onerror, LiveMonitoring.onerror.
  split; [reflexivity|].
  destruct (setStatus_banner "WebSocket error occurred" true p Hb)
    as (e & He & Htx & Ht & _).
  split; [now rewrite (text_of_banner e _ He), Htx|].
  split; [intros i Hi; now apply setStatus_text_other|].
  split; [|split].
  - intros x Hx Hid.
    destruct (find_id WS_STATUS (body p)) as [r|] eqn:E.
    + rewrite (setStatus_reuses _ _ _ _ E). cbn.
      apply in_map_iff. exists x. split; [|assumption].
      unfold set_text. destruct (Nat.eqb (ref x) r) eqn:Er; [|reflexivity].
      apply Nat.eqb_eq in Er. exfalso. apply Hid.
      destruct Hwf as (Hnd & _). now apply (found_id WS_STATUS r (body p) x).
    + rewrite (setStatus_creates _ _ _ Hwf (banners_none _ E)). cbn.
      apply in_or_app. now left.
  - intros H0. now destruct (setStatus_created "WebSocket error occurred"
                               true p H0).
  - rewrite Ht, length_app. simpl. lia.
Qed.

Lemma error_touches_the_banner_only_witness :
  text_of "live-data" (body (snd (Dashboard.onerror dashboard_page)))
  = Some "stale".
Proof.
  refine (proj1 (proj2 (proj2 (error_touches_the_banner_only dashboard_page
                                 _ _))) "live-data" _).
  - apply well_formedb_sound. reflexivity.
  - unfold banner_bound. simpl. lia.
  - discriminate.
Defined.

(* ================================================================== *)
(** ** How long a banner stays *)

Lemma In_elapse e ms p :
  In e (body (snd (elapse ms p)))
  <-> In e (body p)
      /\ forall tm, In tm (timers p) -> (due tm <= now p + ms)%N ->
                    target tm <> ref e.
Proof.
  rewrite elapse_body, filter_In, spared_true. split; intros [Hin H]; split;
    auto; intros tm Htm.
  - intros Hdue. apply H. apply filter_In. split; [assumption|].
    unfold is_due. now apply N.leb_le.
  - apply filter_In in Htm as [Htm Hdue]. apply H; [assumption|].
    unfold is_due in Hdue. now apply N.leb_le.
Qed.

(** X5.  The banner [setStatus] creates on a page that showed none is on
    the page for 3500 ms and gone from then on, whatever other callbacks are
    pending. *)
Theorem new_banner_stays_for_its_dwell msg isError p :
  well_formed p ->
  banners (body p) = [] ->
  expires_after STATUS_DWELL
    (mkElement (fresh p) "div" WS_STATUS msg (status_style isError))
    (snd (setStatus msg isError p)).
Proof.
  intros Hwf H0 ms. rewrite !In_elapse, (setStatus_creates _ _ _ Hwf H0).
  destruct Hwf as (_ & _ & Ht). rewrite Forall_forall in Ht. cbn.
  split.
  - intros Hms. split; [apply in_or_app; right; simpl; auto|].
    intros tm Htm Hdue. apply in_app_or in Htm as [Htm|[<-|[]]].
    + specialize (Ht tm Htm). simpl in Ht. lia.
    + simpl in Hdue. lia.
  - intros Hms [_ H].
    apply (H (mkTimer (now p + STATUS_DWELL) (fresh p))).
    + apply in_or_app. right. simpl. auto.
    + simpl. lia.
    + reflexivity.
Qed.

Lemma new_banner_stays_for_its_dwell_witness :
  expires_after STATUS_DWELL
    (mkElement 2 "div" WS_STATUS "Connected to live updates"
               (status_style false))
    (snd (Dashboard.onopen dashboard_page)).
Proof.
  apply (new_banner_stays_for_its_dwell "Connected to live updates" false
           dashboard_page).
  - apply well_formedb_sound. reflexivity.
  - reflexivity.
Defined.

(** X6.  A status update [dt] ms after the one that created the banner
    ([dt] below 3500) rewrites that banner, which keeps the style of the
    first update, and does not postpone its removal: the new text is shown
    for [3500 - dt] ms only, the removal the first update scheduled taking
    the banner away. *)
Theorem reused_banner_leaves_early msg1 flag1 msg2 flag2 (dt : N) p :
  well_formed p ->
  banners (body p) = [] ->
  (dt < STATUS_DWELL)%N ->
  let p1 := snd (setStatus msg1 flag1 p) in
  let p2 := snd (elapse dt p1) in
  let p3 := snd (setStatus msg2 flag2 p2) in
  let banner := mkElement (fresh p) "div" WS_STATUS msg2 (status_style flag1) in
  banners (body p3) = [banner]
  /\ expires_after (STATUS_DWELL - dt) banner p3.
Proof.
  intros Hwf H0 Hdt. cbv zeta.
  pose proof Hwf as (Hnd & Hb & Ht). rewrite Forall_forall in Ht.
  set (b1 := mkElement (fresh p) "div" WS_STATUS msg1 (status_style flag1)).
  set (t1 := mkTimer (now p + STATUS_DWELL) (fresh p)).
  assert (Hold : forall tm, In tm (timers p) -> target tm <> fresh p).
  { intros tm Htm. specialize (Ht tm Htm). simpl in Ht. lia. }
  rewrite (setStatus_creates _ _ _ Hwf H0). fold b1 t1.
  set (p1 := mkPage (body p ++ [b1])%list (S (fresh p))
                    (timers p ++ [t1])%list (now p) (sockets p)).
  set (p2 := snd (elapse dt p1)).
  assert (Hin2 : In b1 (body p2)).
  { apply In_elapse. split; [apply in_or_app; right; simpl; auto|].
    intros tm Htm Hdue. cbn in Htm, Hdue.
    apply in_app_or in Htm as [Htm|[<-|[]]]; [now apply Hold|].
    simpl in Hdue. unfold STATUS_DWELL in *. lia. }
  assert (Hban2 : banners (body p2) = [b1]).
  { pose proof Hin2 as Hsp. unfold p2 in Hsp |- *.
    rewrite elapse_body in Hsp |- *. apply filter_In in Hsp as [_ Hsp].
    rewrite banners_filter. cbn [body p1]. rewrite banners_app, H0.
    change (banners [b1]) with [b1]. cbn [app filter]. now rewrite Hsp. }
  assert (Hfind2 : find_id WS_STATUS (body p2) = Some (fresh p)).
  { destruct (find_id WS_STATUS (body p2)) as [r|] eqn:E.
    - destruct (banners_found _ _ E) as (e & rest & Hbn & Hr).
      rewrite Hban2 in Hbn. injection Hbn as <- _. now rewrite <- Hr.
    - apply banners_none in E. congruence. }
  rewrite (setStatus_reuses _ _ _ _ Hfind2).
  assert (Ht2 : timers p2 = filter (fun tm => negb (is_due (now p + dt) tm))
                              (timers p ++ [t1])) by reflexivity.
  assert (Hn2 : now p2 = (now p + dt)%N) by reflexivity.
  split.
  - cbn [body]. rewrite banners_set_text, Hban2. cbn. unfold set_text. cbn.
    now rewrite Nat.eqb_refl.
  - intros ms. rewrite !In_elapse. cbn [body timers now]. rewrite Hn2.
    assert (Hbanner : In (mkElement (fresh p) "div" WS_STATUS msg2
                                    (status_style flag1))
                         (map (set_text (fresh p) msg2) (body p2))).
    { apply in_map_iff. exists b1. split; [|assumption].
      unfold set_text. cbn. now rewrite Nat.eqb_refl. }
    split.
    + intros Hms. split; [assumption|].
      intros tm Htm Hdue. cbn [ref].
      apply in_app_or in Htm as [Htm|[<-|[]]].
      * rewrite Ht2 in Htm. apply filter_In in Htm as [Htm _].
        apply in_app_or in Htm as [Htm|[<-|[]]]; [now apply Hold|].
        simpl in Hdue. unfold STATUS_DWELL in *. lia.
      * simpl in Hdue. unfold STATUS_DWELL in *. lia.
    + intros Hms [_ H]. apply (H t1); [| |reflexivity].
      * apply in_or_app. left. rewrite Ht2. apply filter_In.
        split; [apply in_or_app; right; simpl; auto|].
        apply negb_true_iff. unfold is_due. apply N.leb_gt. simpl.
        unfold STATUS_DWELL in *. lia.
      * simpl. unfold STATUS_DWELL in *. lia.
Qed.

Lemma reused_banner_leaves_early_witness :
  let p := Dashboard.run frames [EvOpen; EvElapse 1000; EvError] empty_page in
  expires_after 2500
    (mkElement 0 "div" WS_STATUS "WebSocket error occurred"
               (status_style false)) p.
Proof.
  refine (proj2 (reused_banner_leaves_early "Connected to live updates" false
                   "WebSocket error occurred" true 1000 empty_page _ _ _)).
  - apply well_formedb_sound. reflexivity.
  - reflexivity.
  - reflexivity.
Defined.

(* ================================================================== *)
(** ** How a message handler completes *)

Lemma strict_eq_falsy v lit : truthy v = false -> lit <> EmptyString -> strict_eq v lit = false.
Proof.
  destruct v as [[]|]; simpl; try reflexivity; try discriminate.
  intros H Hlit. apply negb_false_iff, String.eqb_eq in H. subst.
  apply String.eqb_neq. congruence.
Qed.

Lemma escalate_completion payload p :
  truthy payload = true ->
  fst (escalate payload p)
  = if strict_eq (field payload "threat_level") "CRITICAL"
       || strict_eq (field payload "threat_level") "HIGH"
    then match template (field payload "location") with
         | Normal _ => Normal tt
         | Throw e => Throw e
         end
    else Normal tt.
Proof.
  intros Htr. unfold escalate, bind, lift.
  rewrite !(member_truthy payload) by assumption.
  destruct (strict_eq (field payload "threat_level") "CRITICAL"); simpl.
  - now destruct (template (field payload "location")).
  - destruct (strict_eq (field payload "threat_level") "HIGH"); simpl;
      [|reflexivity].
    now destruct (template (field payload "location")).
Qed.

Lemma outcome_not_null m :
  m <> JNull ->
  outcome m
  = if strict_eq (field (Some m) "type") "instant_threat"
       && (strict_eq (threat_level m) "CRITICAL"
           || strict_eq (threat_level m) "HIGH")
    then match template (location_of m) with
         | Normal _ => Normal tt
         | Throw e => Throw e
         end
    else Normal tt.
Proof. destruct m; congruence || reflexivity. Qed.

Lemma monitoring_completion m p :
  fst (LiveMonitoring.process m p) = outcome m.
Proof.
  unfold LiveMonitoring.process, LiveMonitoring.notify, bind at 1 2,
    getElementById.
  rewrite mirror_step.
  destruct (value_null_dec m) as [->|Hm]; [reflexivity|].
  rewrite (outcome_not_null m Hm).
  rewrite (member_message m "type" Hm), bind_lift_Normal.
  destruct (strict_eq (field (Some m) "type") "instant_threat") eqn:Hty;
    [|reflexivity].
  rewrite (member_message m "data" Hm), bind_lift_Normal. cbn [andb].
  unfold threat_level, location_of.
  destruct (truthy (field (Some m) "data")) eqn:Htr.
  - rewrite (member_truthy _ "threat_level" Htr), bind_lift_Normal.
    destruct (truthy (field (field (Some m) "data") "threat_level")) eqn:Hlv.
    + now apply escalate_completion.
    + rewrite !(strict_eq_falsy _ _ Hlv) by discriminate. reflexivity.
  - rewrite (field_of_falsy _ "threat_level" Htr). reflexivity.
Qed.

Lemma dashboard_completion m p :
  fst (Dashboard.process m p)
  = match find_id "alerts-area" (body p) with
    | Some _ => outcome m
    | None => Normal tt
    end.
Proof.
  unfold Dashboard.process, bind at 1 2, getElementById.
  rewrite mirror_step. unfold bind at 1. cbn [fst snd].
  rewrite mirrored_find_id.
  destruct (find_id "alerts-area" (body p)) as [area|]; [|reflexivity].
  destruct (value_null_dec m) as [->|Hm]; [reflexivity|].
  rewrite (outcome_not_null m Hm).
  rewrite (member_message m "type" Hm), bind_lift_Normal.
  destruct (strict_eq (field (Some m) "type") "instant_threat") eqn:Hty;
    [|reflexivity].
  rewrite (member_message m "data" Hm), bind_lift_Normal. cbn [andb].
  unfold threat_level, location_of.
  destruct (field (Some m) "data") as [d|] eqn:Hd; [|reflexivity].
  destruct (truthy (Some d)) eqn:Htr.
  - unfold bind at 1. cbn [set_textContent]. now apply escalate_completion.
  - rewrite (field_of_falsy _ "threat_level" Htr). reflexivity.
Qed.

Lemma outcome_Normal m :
  outcome m = Normal tt
  <-> m <> JNull
      /\ (escalated m -> exists shown, template (location_of m) = Normal shown).
Proof.
  unfold escalated.
  destruct (value_null_dec m) as [->|Hm].
  - split; [discriminate|intros [H _]; congruence].
  - rewrite (outcome_not_null m Hm).
    destruct (strict_eq (field (Some m) "type") "instant_threat"); cbn [andb].
    + destruct (strict_eq (threat_level m) "CRITICAL" ||
                strict_eq (threat_level m) "HIGH") eqn:E.
      * apply orb_true_iff in E.
        destruct (template (location_of m)) as [s|e].
        -- split; eauto.
        -- split; [discriminate|]. intros [_ H].
           destruct (H (conj eq_refl E)) as (s & Hs). discriminate.
      * apply orb_false_iff in E as [E1 E2]. split; [|reflexivity].
        intros _. split; [assumption|]. intros [_ [H|H]]; congruence.
    + split; [|reflexivity]. intros _. split; [assumption|].
      intros [H _]. discriminate.
Qed.

Lemma outcome_cases m : outcome m = Normal tt \/ outcome m = Throw TypeError.
Proof.
  destruct (value_null_dec m) as [->|Hm]; [now right|].
  rewrite (outcome_not_null m Hm).
  destruct (_ && _); [|now left].
  unfold template.
  destruct (location_of m) as [x|]; [|now left].
  destruct (ToString x); [now left|now right].
Qed.

(** X7.  How [ws.onmessage] completes.  It ends on a SyntaxError exactly
    when the frame does not decode.  It ends on a TypeError exactly when the
    frame decodes to [null], or to an instant threat of level [CRITICAL] or
    [HIGH] whose location cannot be converted to a string (and, for
    [dashboard.js], the page has an alerts-area).  In every other case it
    completes normally. *)
Theorem message_handler_completion
        (JSON_parse : string -> option value) frame p :
  let monitoring := fst (LiveMonitoring.onmessage JSON_parse frame p) in
  let dashboard := fst (Dashboard.onmessage JSON_parse frame p) in
  let unconvertible m :=
    m = JNull
    \/ (escalated m /\ template (location_of m) = Throw TypeError) in
  (monitoring = Throw SyntaxError <-> JSON_parse frame = None)
  /\ (dashboard = Throw SyntaxError <-> JSON_parse frame = None)
  /\ (monitoring = Throw TypeError
      <-> exists m, JSON_parse frame = Some m /\ unconvertible m)
  /\ (dashboard = Throw TypeError
      <-> exists m, JSON_parse frame = Some m /\ unconvertible m
                    /\ find_id "alerts-area" (body p) <> None)
  /\ (monitoring = Normal tt \/ monitoring = Throw SyntaxError
      \/ monitoring = Throw TypeError)
  /\ (dashboard = Normal tt \/ dashboard = Throw SyntaxError
      \/ dashboard = Throw TypeError).
Proof.
  cbv zeta.
  assert (Hun : forall m, outcome m = Throw TypeError
                  <-> (m = JNull \/ (escalated m
                        /\ template (location_of m) = Throw TypeError))).
  { intros m. pose proof (outcome_Normal m) as HN.
    pose proof (outcome_cases m) as HC. split.
    - intros HT. destruct (value_null_dec m) as [->|Hm]; [now left|right].
      rewrite (outcome_not_null m Hm) in HT. unfold escalated.
      destruct (strict_eq (field (Some m) "type") "instant_threat");
        cbn [andb] in HT; [|discriminate].
      destruct (_ || _) eqn:E in HT; [|discriminate].
      apply orb_true_iff in E.
      destruct (template (location_of m)) as [s|e] eqn:T; [discriminate|].
      injection HT as ->. auto.
    - intros [->|[He HT]]; [reflexivity|].
      destruct HC as [HC|HC]; [|assumption].
      apply HN in HC as [_ HC]. destruct (HC He) as (s & Hs). congruence. }
  destruct (JSON_parse frame) as [m|] eqn:Hdec.
  - rewrite (monitoring_onmessage_decoded _ _ _ _ Hdec),
            (dashboard_onmessage_decoded _ _ _ _ Hdec),
            monitoring_completion, dashboard_completion.
    pose proof (outcome_cases m) as HC. specialize (Hun m).
    split; [split; [destruct HC; congruence|discriminate]|].
    split.
    { split; [|discriminate].
      destruct (find_id _ _); [destruct HC; congruence|discriminate]. }
    split.
    { split; [intros H; exists m; split; [reflexivity|now apply Hun]|].
      intros (m' & [= <-] & H). now apply Hun. }
    split.
    { split.
      - intros H. exists m. destruct (find_id _ _); [|discriminate].
        split; [reflexivity|]. split; [now apply Hun|discriminate].
      - intros (m' & [= <-] & H & Ha).
        destruct (find_id _ _); [now apply Hun|contradiction]. }
    split; [destruct HC; auto|].
    destruct (find_id _ _); [destruct HC; auto|auto].
  - unfold LiveMonitoring.onmessage, Dashboard.onmessage,
      LiveMonitoring.decode, Dashboard.decode. rewrite Hdec. cbn.
    split; [tauto|]. split; [tauto|].
    split; [split; [discriminate|intros (m & H & _); discriminate]|].
    split; [split; [discriminate|intros (m & H & _); discriminate]|].
    auto.
Qed.

(** X8.  On a page that has an alerts-area the two scripts handle every
    frame alike: they complete the same way and emit the same toasts (the
    truthiness test of [alert.data.threat_level] that only
    [live_monitoring.js] makes changes nothing). *)
Theorem scripts_agree_with_alerts_area
        (JSON_parse : string -> option value) frame p :
  well_formed p ->
  find_id "alerts-area" (body p) <> None ->
  fst (Dashboard.onmessage JSON_parse frame p)
  = fst (LiveMonitoring.onmessage JSON_parse frame p)
  /\ exists ts,
       emits DASHBOARD_SLOTS ts p (snd (Dashboard.onmessage JSON_parse frame p))
       /\ emits MONITORING_SLOTS ts p
                (snd (LiveMonitoring.onmessage JSON_parse frame p)).
Proof.
  intros Hwf Harea. destruct (JSON_parse frame) as [m|] eqn:Hdec.
  - rewrite (monitoring_onmessage_decoded _ _ _ _ Hdec),
            (dashboard_onmessage_decoded _ _ _ _ Hdec),
            monitoring_completion, dashboard_completion.
    pose proof (dashboard_emits m p Hwf) as HD.
    destruct (find_id "alerts-area" (body p)); [|contradiction].
    split; [reflexivity|]. exists (notifications m).
    split; [exact HD|now apply monitoring_emits].
  - unfold LiveMonitoring.onmessage, Dashboard.onmessage,
      LiveMonitoring.decode, Dashboard.decode. rewrite Hdec. cbn.
    split; [reflexivity|]. exists []. split; apply emits_nothing.
Qed.

Lemma scripts_agree_with_alerts_area_witness :
  fst (Dashboard.onmessage frames (frame_of unprintable) dashboard_page)
  = fst (LiveMonitoring.onmessage frames (frame_of unprintable) dashboard_page).
Proof.
  refine (proj1 (scripts_agree_with_alerts_area frames (frame_of unprintable)
                   dashboard_page _ _)).
  - apply well_formedb_sound. reflexivity.
  - simpl. discriminate.
Defined.

(* ================================================================== *)
(** ** The alerts-area of the dashboard *)

(** X9.  The alerts-area of [dashboard.js].  For an instant threat whose
    data is truthy it shows the pretty-printed [data.data], not the whole
    message; for any other message it keeps what it showed before. *)
Theorem dashboard_alerts_area_shows_data
        (JSON_parse : string -> option value) frame m p :
  JSON_parse frame = Some m ->
  well_formed p ->
  let before := text_of "alerts-area" (body p) in
  let after := text_of "alerts-area"
                 (body (snd (Dashboard.onmessage JSON_parse frame p))) in
  (forall d,
      strict_eq (field (Some m) "type") "instant_threat" = true ->
      field (Some m) "data" = Some d ->
      truthy (Some d) = true ->
      after = option_map (fun _ => JSON_stringify d) before)
  /\ (strict_eq (field (Some m) "type") "instant_threat" = false
      \/ truthy (field (Some m) "data") = false ->
      after = before).
Proof.
  intros Hdec (Hnd & _). cbv zeta.
  rewrite (dashboard_onmessage_decoded _ _ _ _ Hdec). split.
  - intros d Hty Hd Htr.
    destruct (find_id "alerts-area" (body p)) as [area|] eqn:E.
    + rewrite (emits_text "alerts-area" _ _ _ ltac:(discriminate)
                 (dashboard_threat_page m d p ltac:(congruence) Hty Hd Htr)).
      rewrite mirrored_text, mirrored_text_other by (assumption || discriminate).
      reflexivity.
    + pose proof (dashboard_escalation m p) as H. cbv zeta in H.
      rewrite E in H. rewrite H.
      rewrite mirrored_text_other by (assumption || discriminate).
      apply text_of_none in E. now rewrite E.
  - intros Hother. rewrite (dashboard_other_page m p Hother).
    apply mirrored_text_other; [assumption|discriminate].
Qed.

Lemma dashboard_alerts_area_shows_data_witness :
  text_of "alerts-area"
    (body (snd (Dashboard.onmessage frames (frame_of kochi) dashboard_page)))
  = Some (JSON_stringify (JObject [ ("location", JString "Kochi");
                                    ("threat_level", JString "LOW") ])).
Proof.
  refine (proj1 (dashboard_alerts_area_shows_data frames (frame_of kochi) kochi
                   dashboard_page _ _) _ _ _ _).
  - reflexivity.
  - apply well_formedb_sound. reflexivity.
  - reflexivity.
  - reflexivity.
  - reflexivity.
Defined.

(* ================================================================== *)
(** ** A stream of frames *)

Lemma monitoring_undecoded (JSON_parse : string -> option value) f p :
  JSON_parse f = None -> snd (LiveMonitoring.onmessage JSON_parse f p) = p.
Proof.
  intros H. unfold LiveMonitoring.onmessage, LiveMonitoring.decode.
  now rewrite H.
Qed.

Lemma dashboard_undecoded (JSON_parse : string -> option value) f p :
  JSON_parse f = None -> snd (Dashboard.onmessage JSON_parse f p) = p.
Proof.
  intros H. unfold Dashboard.onmessage, Dashboard.decode. now rewrite H.
Qed.


Section Stream.

Variable JSON_parse : string -> option value.



End Stream.



(* ================================================================== *)
(** ** Handlers only add *)

Lemma retext_incl ids ids' e e' :
  incl ids ids' -> retext ids e e' -> retext ids' e e'.
Proof. intros Hi [->|(Hin & H)]; [now left|right; auto]. Qed.

Lemma retexted_incl ids ids' b c :
  incl ids ids' -> retexted ids b c -> retexted ids' b c.
Proof. intros Hi H. induction H; constructor; eauto using retext_incl. Qed.

Lemma retexted_keeps ids b c e :
  retexted ids b c -> In e b -> ~ In (id e) ids -> In e c.
Proof.
  induction 1 as [|x y b c Hxy _ IH]; simpl; [tauto|].
  intros [->|Hin] Hid; [|right; auto].
  left. destruct Hxy as [->|(Hx & _)]; [reflexivity|contradiction].
Qed.

Lemma additive_refl p : additive p p.
Proof.
  exists (body p), [], []. rewrite !app_nil_r. simpl.
  repeat split; auto using retexted_refl.
Qed.

Lemma removals_from_length t r n : length (removals_from t r n) = n.
Proof. revert r. induction n; intros r; simpl; congruence. Qed.

Lemma toasts_from_length r ts : length (toasts_from r ts) = length ts.
Proof. revert r. induction ts as [|[m l] ts IH]; intros r; simpl; congruence. Qed.

Lemma additive_of_emits ids ts p p' :
  incl ids ALL_SLOTS -> length ts <= 1 -> emits ids ts p p' -> additive p p'.
Proof.
  intros Hi Hlen ((b' & Hb' & Hbody) & Ht & Hf & Hn & Hs).
  exists b', (toasts_from (fresh p) ts),
    (removals_from (now p + TOAST_DWELL) (fresh p) (length ts)).
  rewrite toasts_from_length, removals_from_length.
  repeat split; eauto using retexted_incl; try lia.
  - apply Forall_forall. intros x Hx. apply (in_map ref) in Hx.
    rewrite toasts_from_refs in Hx. apply in_seq in Hx. lia.
  - apply Forall_forall. intros tm Htm. left. apply (in_map target) in Htm.
    rewrite removals_from_targets in Htm. apply in_seq in Htm. lia.
  - eapply Forall_impl; [|apply removals_from_due]. simpl. intros tm ->.
    unfold TOAST_DWELL. lia.
Qed.

Lemma additive_setStatus msg isError p :
  well_formed p -> additive p (snd (setStatus msg isError p)).
Proof.
  intros Hwf. pose proof Hwf as (Hnd & _).
  destruct (find_id WS_STATUS (body p)) as [r|] eqn:E.
  - rewrite (setStatus_reuses _ _ _ _ E).
    exists (map (set_text r msg) (body p)), [],
      [mkTimer (now p + STATUS_DWELL) r].
    cbn. rewrite app_nil_r. repeat split; auto.
    + apply (assign_retexted ALL_SLOTS WS_STATUS); simpl; auto.
    + constructor; [|constructor]. right.
      destruct (find_id_In _ _ _ E) as (x & Hx & Hr & Hi). eauto.
    + constructor; [|constructor]. simpl. unfold STATUS_DWELL. lia.
  - rewrite (setStatus_creates _ _ _ Hwf (banners_none _ E)).
    exists (body p),
      [mkElement (fresh p) "div" WS_STATUS msg (status_style isError)],
      [mkTimer (now p + STATUS_DWELL) (fresh p)].
    cbn. repeat split; auto using retexted_refl.
    constructor; [|constructor]. simpl. unfold STATUS_DWELL. lia.
Qed.

Lemma additive_NoDup p p' :
  well_formed p -> additive p p' -> NoDup (map ref (body p')).
Proof.
  intros (Hnd & Hb & _)
         (b' & added & extra & Hb' & -> & _ & Hla & _ & Hadd & _).
  rewrite map_app. apply NoDup_app.
  - now rewrite (retexted_refs _ _ _ Hb').
  - destruct added as [|x [|]]; simpl in *; try lia; repeat constructor;
      simpl; tauto.
  - intros r Hr Hr'. rewrite (retexted_refs _ _ _ Hb') in Hr.
    apply in_map_iff in Hr as (e & <- & He).
    apply in_map_iff in Hr' as (x & Hx & Hxin).
    rewrite Forall_forall in Hb, Hadd.
    specialize (Hb e He). specialize (Hadd x Hxin). simpl in *. lia.
Qed.

Lemma additive_mirrored i s p p1 :
  well_formed p -> additive p p1 -> In i ALL_SLOTS ->
  additive p (mirrored i s p1).
Proof.
  intros Hwf Hadd Hi. pose proof (additive_NoDup _ _ Hwf Hadd) as Hnd1.
  unfold mirrored. destruct (find_id i (body p1)) as [r|] eqn:E; [|exact Hadd].
  pose proof (assign_retexted ALL_SLOTS i r s (body p1) Hnd1 E Hi) as Hre.
  destruct Hadd as (b' & added & extra & Hb' & Hbody & Ht & Hla & Hle & Hfa
                    & Hfe & Hdue & Hf & Hn & Hs).
  rewrite Hbody in Hre.
  apply Forall2_app_inv_l in Hre as (c1 & c2 & Hc1 & Hc2 & Hc).
  exists c1, c2, extra. cbn. rewrite map_app in Hc.
  repeat split; auto.
  - eapply retexted_trans; eassumption.
  - now rewrite Hbody, map_app.
  - now rewrite (retexted_length _ _ _ Hc2).
  - pose proof (retexted_refs _ _ _ Hc2) as Hrefs.
    apply Forall_forall. intros x Hx. apply (in_map ref) in Hx.
    rewrite Hrefs in Hx. apply in_map_iff in Hx as (y & <- & Hy).
    rewrite Forall_forall in Hfa. now apply Hfa.
Qed.

Section Additive.

Variable JSON_parse : string -> option value.

Lemma additive_dashboard e p :
  well_formed p -> (forall ms, e <> EvElapse ms) ->
  additive p (Dashboard.step JSON_parse p e).
Proof.
  intros Hwf He. destruct e as [|f| | |ms]; unfold Dashboard.step;
    cbn [Dashboard.dispatch].
  - now apply additive_setStatus.
  - destruct (JSON_parse f) as [m|] eqn:Hf.
    + rewrite (dashboard_onmessage_decoded _ _ _ _ Hf).
      eapply (additive_of_emits DASHBOARD_SLOTS);
        [| |apply (dashboard_emits m p Hwf)].
      * intros i [<-|[<-|[]]]; simpl; auto.
      * destruct (find_id _ _); [apply notifications_length|simpl; lia].
    + rewrite (dashboard_undecoded _ _ _ Hf). apply additive_refl.
  - now apply additive_setStatus.
  - rewrite dashboard_onclose_page.
    repeat apply additive_mirrored; simpl; auto.
    now apply additive_setStatus.
  - now elim (He ms).
Qed.

Lemma additive_monitoring e p :
  well_formed p -> (forall ms, e <> EvElapse ms) ->
  additive p (LiveMonitoring.step JSON_parse p e).
Proof.
  intros Hwf He. destruct e as [|f| | |ms]; unfold LiveMonitoring.step;
    cbn [LiveMonitoring.dispatch].
  - now apply additive_setStatus.
  - destruct (JSON_parse f) as [m|] eqn:Hf.
    + rewrite (monitoring_onmessage_decoded _ _ _ _ Hf).
      eapply (additive_of_emits MONITORING_SLOTS);
        [| |apply (monitoring_emits m p Hwf)].
      * intros i [<-|[]]; simpl; auto.
      * apply notifications_length.
    + rewrite (monitoring_undecoded _ _ _ Hf). apply additive_refl.
  - now apply additive_setStatus.
  - rewrite monitoring_onclose_page.
    apply additive_mirrored; simpl; auto.
    now apply additive_setStatus.
  - now elim (He ms).
Qed.

End Additive.

(** X11.  No handler takes anything away.  An open, message, error or close
    event leaves every element of the page in place with its style, the
    texts of live-data, alerts-area and the banner apart; it appends at most
    one element and schedules at most one removal, for a later time, on a
    new element or on a banner; no pending callback is dropped. *)
Theorem handlers_only_add (JSON_parse : string -> option value) e p :
  well_formed p ->
  (forall ms, e <> EvElapse ms) ->
  additive p (Dashboard.step JSON_parse p e)
  /\ additive p (LiveMonitoring.step JSON_parse p e).
Proof.
  intros Hwf He. split;
    [now apply additive_dashboard|now apply additive_monitoring].
Qed.

Lemma handlers_only_add_witness :
  additive (snd (Dashboard.onmessage frames (frame_of chennai) dashboard_page))
           (Dashboard.step frames
              (snd (Dashboard.onmessage frames (frame_of chennai)
                      dashboard_page))
              EvClose).
Proof.
  refine (proj1 (handlers_only_add frames EvClose
                   (snd (Dashboard.onmessage frames (frame_of chennai)
                           dashboard_page)) _ _)).
  - apply well_formedb_sound. reflexivity.
  - discriminate.
Defined.

(* ================================================================== *)
(** ** How long a toast stays, whatever happens meanwhile *)

Lemma elapse_refs ms p r :
  In r (map ref (body (snd (elapse ms p)))) -> In r (map ref (body p)).
Proof.
  rewrite elapse_body. intros H. apply in_map_iff in H as (e & <- & He).
  apply filter_In in He as [He _]. now apply in_map.
Qed.

Lemma departed_elapse r ms p : departed r p -> departed r (snd (elapse ms p)).
Proof.
  intros [Hf Hr]. split; [exact Hf|]. intros H. apply Hr.
  eapply elapse_refs, H.
Qed.

Lemma departed_additive r p p' : departed r p -> additive p p' -> departed r p'.
Proof.
  intros [Hf Hr] (b' & added & extra & Hb' & Hbody & _ & _ & _ & Hadd & _
                  & _ & Hfresh & _).
  split; [lia|]. rewrite Hbody, map_app, (retexted_refs _ _ _ Hb').
  intros H. apply in_app_or in H as [H|H]; [contradiction|].
  apply in_map_iff in H as (x & Hx & Hin).
  rewrite Forall_forall in Hadd. specialize (Hadd x Hin). lia.
Qed.

Lemma leaving_additive t d p p' :
  leaving t d p -> well_formed p' -> additive p p' -> leaving t d p'.
Proof.
  intros (Hwf & Hin & Hid & Htm & Hdue & Hnow) Hwf'
         (b' & added & extra & Hb' & Hbody & Ht & _ & _ & _ & Hex & _
          & _ & Hn & _).
  pose proof Hwf as (Hnd & Hb & _).
  unfold leaving. rewrite Hbody, Ht, Hn.
  refine (conj Hwf' (conj _ (conj Hid (conj _ (conj _ Hnow))))).
  - apply in_or_app. left. apply (retexted_keeps ALL_SLOTS (body p)); auto.
    rewrite Hid. simpl. intros [H|[H|[H|[]]]]; discriminate.
  - apply in_or_app. now left.
  - intros tm Hin' Htgt. apply in_app_or in Hin' as [Hin'|Hin']; [auto|].
    exfalso. rewrite Forall_forall in Hex, Hb.
    destruct (Hex tm Hin') as [Hfresh|(x & Hx & Hrx & Hix)].
    + specialize (Hb t Hin). simpl in Hb. lia.
    + assert (x = t) by (apply (NoDup_ref_unique (body p)); auto; congruence).
      subst x. rewrite Hid in Hix. discriminate.
Qed.

Lemma leaving_elapse t d ms p :
  leaving t d p ->
  ((now p + ms < d)%N -> leaving t d (snd (elapse ms p)))
  /\ ((d <= now p + ms)%N -> departed (ref t) (snd (elapse ms p))).
Proof.
  intros (Hwf & Hin & Hid & Htm & Hdue & Hnow). split; intros Hms.
  - refine (conj (well_formed_elapse ms p Hwf)
                  (conj _ (conj Hid (conj _ (conj _ _))))).
    + apply In_elapse. split; [assumption|].
      intros tm Hin' Hd' Htgt. specialize (Hdue tm Hin' Htgt). lia.
    + cbn. apply filter_In. split; [assumption|].
      apply negb_true_iff. unfold is_due. apply N.leb_gt. simpl. lia.
    + cbn. intros tm Hin'. apply filter_In in Hin' as [Hin' _]. auto.
    + simpl. lia.
  - destruct Hwf as (Hnd & Hb & _). rewrite Forall_forall in Hb. split.
    + apply (Hb t Hin).
    + intros H. apply in_map_iff in H as (x & Hx & Hxin).
      apply In_elapse in Hxin as [_ Hsp].
      apply (Hsp (mkTimer d (ref t))); auto.
Qed.

Section Trace.

Variable step : Page -> Event -> Page.
Hypothesis step_elapse : forall p ms, step p (EvElapse ms) = snd (elapse ms p).
Hypothesis step_additive :
  forall p e, well_formed p -> (forall ms, e <> EvElapse ms) ->
              additive p (step p e).
Hypothesis step_well_formed : forall p e, well_formed p -> well_formed (step p e).

Lemma event_cases (e : Event) :
  (exists ms, e = EvElapse ms) \/ (forall ms, e <> EvElapse ms).
Proof. destruct e; eauto; right; discriminate. Qed.

Lemma step_now p e : well_formed p -> (now p <= now (step p e))%N.
Proof.
  intros Hwf. destruct (event_cases e) as [(ms & ->)|He].
  - rewrite step_elapse. simpl. lia.
  - destruct (step_additive p e Hwf He)
      as (b' & added & extra & _ & _ & _ & _ & _ & _ & _ & _ & _ & -> & _).
    lia.
Qed.

Lemma departed_trace r events p :
  well_formed p -> departed r p ->
  departed r (fold_left step events p)
  /\ (now p <= now (fold_left step events p))%N.
Proof.
  revert p. induction events as [|e events IH]; intros p Hwf Hl; simpl.
  - split; [assumption|lia].
  - pose proof (step_now p e Hwf) as Hn.
    assert (Hl' : departed r (step p e)).
    { destruct (event_cases e) as [(ms & ->)|He].
      - rewrite step_elapse. now apply departed_elapse.
      - eapply departed_additive; eauto. }
    destruct (IH _ (step_well_formed p e Hwf) Hl') as (H1 & H2).
    split; [assumption|lia].
Qed.

Lemma leaving_trace t d events p :
  leaving t d p ->
  let p' := fold_left step events p in
  ((now p' < d)%N -> In t (body p'))
  /\ ((d <= now p')%N -> ~ In t (body p')).
Proof.
  revert p. induction events as [|e events IH]; intros p Hl; simpl.
  - destruct Hl as (_ & Hin & _ & _ & _ & Hnow). split; [auto|lia].
  - pose proof Hl as (Hwf & _).
    assert (Hcase : leaving t d (step p e)
                    \/ (departed (ref t) (step p e) /\ (d <= now (step p e))%N)).
    { destruct (event_cases e) as [(ms & ->)|He].
      - rewrite step_elapse.
        destruct (leaving_elapse t d ms p Hl) as (H1 & H2).
        destruct (N.lt_ge_cases (now p + ms) d) as [H|H]; [left; auto|].
        right. split; [auto|]. simpl. lia.
      - left. apply (leaving_additive t d p); auto. }
    destruct Hcase as [Hl'|[Hl' Hd]]; [now apply IH|].
    destruct (departed_trace (ref t) events (step p e)
                (step_well_formed p e Hwf) Hl') as ([_ Hgone] & Hn).
    split; [lia|]. intros _ Hin. apply Hgone. now apply in_map.
Qed.

End Trace.

Lemma showToast_leaving message level p :
  well_formed p ->
  leaving (toast_element (fresh p) message level) (now p + TOAST_DWELL)
          (snd (showToast message level p)).
Proof.
  intros Hwf. pose proof Hwf as (_ & _ & Ht). rewrite Forall_forall in Ht.
  refine (conj (well_formed_showToast message level p Hwf) _). cbn.
  repeat split.
  - apply in_or_app. right. simpl. auto.
  - apply in_or_app. right. simpl. auto.
  - intros tm Hin Htgt. apply in_app_or in Hin as [Hin|[<-|[]]].
    + specialize (Ht tm Hin). simpl in Ht. lia.
    + simpl. lia.
  - unfold TOAST_DWELL. lia.
Qed.

Lemma step_well_formed_dashboard (JSON_parse : string -> option value) p e :
  well_formed p -> well_formed (Dashboard.step JSON_parse p e).
Proof.
  intros H. apply (proj1 (reachable_well_formed JSON_parse [e] p H)).
Qed.

Lemma step_well_formed_monitoring (JSON_parse : string -> option value) p e :
  well_formed p -> well_formed (LiveMonitoring.step JSON_parse p e).
Proof.
  intros H. apply (proj2 (reachable_well_formed JSON_parse [e] p H)).
Qed.

(** X12.  A toast stays exactly its dwell, whatever happens meanwhile.
    After [showToast] at one of the four levels of its colour table,
    through any sequence of events of either script (messages, errors, a
    close, time passing), the toast is on the page, as it was made, at every
    moment before 5500 ms have passed, and at no moment from then on. *)
Theorem toast_stays_exactly_its_dwell
        (JSON_parse : string -> option value) message level events p :
  well_formed p ->
  In level ["info"; "success"; "danger"; "warning"] ->
  let toast := toast_element (fresh p) message level in
  let shown := snd (showToast message level p) in
  let leaves := (now p + TOAST_DWELL)%N in
  let dashboard := Dashboard.run JSON_parse events shown in
  let monitoring := LiveMonitoring.run JSON_parse events shown in
  ((now dashboard < leaves)%N -> In toast (body dashboard))
  /\ ((leaves <= now dashboard)%N -> ~ In toast (body dashboard))
  /\ ((now monitoring < leaves)%N -> In toast (body monitoring))
  /\ ((leaves <= now monitoring)%N -> ~ In toast (body monitoring)).
Proof.
  intros Hwf _. cbv zeta.
  pose proof (showToast_leaving message level p Hwf) as Hl.
  pose proof (leaving_trace (Dashboard.step JSON_parse)
                (fun _ _ => eq_refl)
                (fun q e Hq He => additive_dashboard JSON_parse e q Hq He)
                (step_well_formed_dashboard JSON_parse)
                _ _ events _ Hl) as HD.
  pose proof (leaving_trace (LiveMonitoring.step JSON_parse)
                (fun _ _ => eq_refl)
                (fun q e Hq He => additive_monitoring JSON_parse e q Hq He)
                (step_well_formed_monitoring JSON_parse)
                _ _ events _ Hl) as HM.
  cbv zeta in HD, HM. destruct HD, HM. auto.
Qed.

Lemma toast_stays_exactly_its_dwell_witness :
  In (toast_element 2 "HIGH THREAT: Goa" "warning")
     (body (Dashboard.run frames
              [EvElapse 2000; EvClose; EvMessage (frame_of chennai);
               EvElapse 3499]
              (snd (showToast "HIGH THREAT: Goa" "warning" dashboard_page)))).
Proof.
  refine (proj1 (toast_stays_exactly_its_dwell frames
                   "HIGH THREAT: Goa" "warning"
                   [EvElapse 2000; EvClose; EvMessage (frame_of chennai);
                    EvElapse 3499]
                   dashboard_page _ _) _).
  - apply well_formedb_sound. reflexivity.
  - simpl. auto.
  - reflexivity.
Defined.
